(** * AutoTableCropNSplit: the FastAPI service [fastapi_app.py]

  A shallow embedding of the request handlers of [fastapi_app.py] and of
  the helpers they call, followed by the properties of the service's
  specification that the code decides.

  Conventions.
  - Python [str] values are [string]s; a character is an 8-bit code unit.
  - Python [int] values are [Z].
  - [bytes] values are [list byte].
  - A Python call that may raise is a computation in the monad [M] of
    section "Effects": it returns a value, raises [HTTPException], or
    raises another [Exception] carrying its [str(e)] text.
  - Calls that leave the process (the file system, Pillow, the table
    cropper, [requests]) are fields of the record [externals]; every such
    call is appended to the event log of the world. *)

From Stdlib Require Import ZArith Lia Bool Ascii String List.
From Stdlib Require Import DecimalString.
From Stdlib Require SpecFloat.
From stdpp Require Import base option list gmap strings.

Set Warnings "-register-all".
#[local] Arguments String.append !_ _ / : simpl nomatch.
Open Scope Z_scope.

(* ===================================================================== *)
(** * Python strings *)
(* ===================================================================== *)

Module PyStr.

(** [c.lower()] on one character below 256: [A]..[Z] and the Latin-1
    capitals U+00C0..U+00DE (U+00D7, the multiplication sign, apart) move
    up by 32; every other character is unchanged. *)
Definition lower_char (c : ascii) : ascii :=
  let n := nat_of_ascii c in
  if ((65 <=? n)%nat && (n <=? 90)%nat)
     || ((192 <=? n)%nat && (n <=? 222)%nat && negb (n =? 215)%nat)
  then ascii_of_nat (n + 32) else c.

(** [s.lower()] *)
Fixpoint lower (s : string) : string :=
  match s with
  | EmptyString => EmptyString
  | String c s' => String (lower_char c) (lower s')
  end.

(** [s.startswith(p)] *)
Fixpoint startswith (s p : string) {struct p} : bool :=
  match p, s with
  | EmptyString, _ => true
  | String _ _, EmptyString => false
  | String a p', String b s' => if Ascii.eqb a b then startswith s' p' else false
  end.

(** [s.endswith(suf)]: some tail of [s] is [suf]. *)
Fixpoint endswith (s suf : string) : bool :=
  String.eqb s suf ||
  match s with
  | EmptyString => false
  | String _ s' => endswith s' suf
  end.

(** [sub in s] *)
Fixpoint contains (sub s : string) : bool :=
  startswith s sub ||
  match s with
  | EmptyString => false
  | String _ s' => contains sub s'
  end.

(** [s[n:]] *)
Fixpoint drop (n : nat) (s : string) : string :=
  match n, s with
  | O, _ => s
  | S _, EmptyString => EmptyString
  | S n', String _ s' => drop n' s'
  end.

(** [s.replace(old, new)] for a non-empty [old]: the occurrences of [old]
    are found left to right and do not overlap.  [skip] counts the
    characters of the current occurrence that are still to be passed
    over. *)
Fixpoint replace_from (skip : nat) (old new s : string) : string :=
  match s with
  | EmptyString => EmptyString
  | String c s' =>
      match skip with
      | S k => replace_from k old new s'
      | O =>
          if startswith s old
          then new +:+ replace_from (String.length old - 1) old new s'
          else String c (replace_from O old new s')
      end
  end.

Definition replace (s old new : string) : string := replace_from O old new s.

(** [s.split(sep)[0]] for a one-character [sep]: the text before the
    first [sep], or all of [s]. *)
Fixpoint before_first (sep : ascii) (s : string) : string :=
  match s with
  | EmptyString => EmptyString
  | String c s' => if Ascii.eqb c sep then EmptyString else String c (before_first sep s')
  end.

(** [str(n)] for an [int]. *)
Definition of_Z (n : Z) : string := NilZero.string_of_int (Z.to_int n).

End PyStr.


(* ===================================================================== *)
(** * [os.path] *)
(* ===================================================================== *)

Module PyPath.

(** [p.rfind(c)]: the last index of [c] in [p], [None] for Python's [-1]. *)
Fixpoint rfind (c : ascii) (p : string) : option nat :=
  match p with
  | EmptyString => None
  | String a p' =>
      match rfind c p' with
      | Some i => Some (S i)
      | None => if Ascii.eqb a c then Some O else None
      end
  end.

(** [os.path.basename(p)] (posixpath): [p[p.rfind('/') + 1:]]. *)
Definition basename (p : string) : string :=
  match rfind "/" p with
  | Some i => PyStr.drop (S i) p
  | None => p
  end.

(** [os.path.splitext(p)[0]] ([genericpath._splitext]): cut at the last
    dot when it lies after the last separator and some character between
    the separator and that dot is not a dot. *)
Definition splitext_root (p : string) : string :=
  match rfind "." p with
  | None => p
  | Some dotIndex =>
      let filenameIndex := match rfind "/" p with Some i => S i | None => O end in
      if existsb (fun i => match String.get i p with
                           | Some a => negb (Ascii.eqb a ".")
                           | None => false
                           end)
                 (seq filenameIndex (dotIndex - filenameIndex))
      then String.substring 0 dotIndex p
      else p
  end.

(** [p.split(sep)] for a one-character [sep]. *)
Fixpoint split_on (sep : ascii) (p : string) : list string :=
  match p with
  | EmptyString => [EmptyString]
  | String c p' =>
      if Ascii.eqb c sep then EmptyString :: split_on sep p'
      else match split_on sep p' with
           | h :: t => String c h :: t
           | [] => [String c EmptyString]
           end
  end.

(** A path component that names no entry of its own: empty, [.] or [..]. *)
Definition names_no_entry (component : string) : bool :=
  String.eqb component "" || String.eqb component "." || String.eqb component "..".

(** The components left after the leading empty and [.] ones. *)
Fixpoint after_here (components : list string) : list string :=
  match components with
  | [] => []
  | c :: rest =>
      if String.eqb c "" || String.eqb c "." then after_here rest else components
  end.

(** [open(os.path.join(work_dir, name), "wb")] in a directory [work_dir]
    that was just created, and so is empty, cannot succeed
    - when the last component of [name] is empty, [.] or [..]: the path
      then names a directory or nothing;
    - when [name] is relative and, after leading [.] and empty components,
      goes through a component other than [..]: that directory does not
      exist.
    Every other name is left to the file system ([os.path.join] drops
    [work_dir] for a [name] that starts with [/], and [..] leaves the new
    directory). *)
Definition refused_in_fresh_directory (name : string) : bool :=
  let components := split_on "/" name in
  names_no_entry (List.last components EmptyString) ||
  (negb (PyStr.startswith name "/") &&
   match after_here components with
   | first :: _ :: _ => negb (String.eqb first "..")
   | _ => false
   end).

End PyPath.

(** Python [bytes]. *)
Definition bytes : Type := list Init.Byte.byte.

(* ===================================================================== *)
(** * Outcomes of a Python call *)
(* ===================================================================== *)

(** A call returns, raises [HTTPException(status_code, detail)], or raises
    another [Exception] [e], kept as [str(e)]. *)
Inductive outcome (A : Type) : Type :=
| Return (a : A)
| RaiseHTTP (status_code : Z) (detail : string)
| Raise (msg : string).

Arguments Return {A} a.
Arguments RaiseHTTP {A} status_code detail.
Arguments Raise {A} msg.

(** A library call that cannot raise [HTTPException]: it returns or raises
    an [Exception] [e], kept as [str(e)]. *)
Inductive pyresult (A : Type) : Type :=
| Ok (a : A)
| Exc (msg : string).

Arguments Ok {A} a.
Arguments Exc {A} msg.

Definition and_then {A B} (r : pyresult A) (k : A -> pyresult B) : pyresult B :=
  match r with
  | Ok a => k a
  | Exc msg => Exc msg
  end.

Notation "'having' x <- r ; k" := (and_then r (fun x => k))
  (at level 10, x name, r at level 100, k at level 200).

(* ===================================================================== *)
(** * JSON values as [response.json()] returns them *)
(* ===================================================================== *)

(** A [float] is kept only up to what the uploader looks at: whether it is
    zero.  A [dict] is the list of its items, keys distinct. *)
Inductive json : Type :=
| JNone
| JBool (b : bool)
| JInt (n : Z)
| JFloat (nonzero : bool)
| JStr (s : string)
| JList (l : list json)
| JDict (items : list (string * json)).

Module PyObj.

(** [type(v).__name__] *)
Definition type_name (v : json) : string :=
  match v with
  | JNone => "NoneType"
  | JBool _ => "bool"
  | JInt _ => "int"
  | JFloat _ => "float"
  | JStr _ => "str"
  | JList _ => "list"
  | JDict _ => "dict"
  end.

(** [bool(v)] *)
Definition truthy (v : json) : bool :=
  match v with
  | JNone => false
  | JBool b => b
  | JInt n => negb (n =? 0)
  | JFloat nonzero => nonzero
  | JStr s => negb (String.eqb s "")
  | JList l => match l with [] => false | _ => true end
  | JDict items => match items with [] => false | _ => true end
  end.

(** The text of the [AttributeError] of [v.attr]. *)
Definition no_attribute (v : json) (attr : string) : string :=
  "'" +:+ type_name v +:+ "' object has no attribute '" +:+ attr +:+ "'".

Fixpoint items_get (items : list (string * json)) (key : string) : option json :=
  match items with
  | [] => None
  | (k, v) :: rest => if String.eqb k key then Some v else items_get rest key
  end.

(** [v.get(key, dflt)]; only a [dict] has [get]. *)
Definition get (v : json) (key : string) (dflt : json) : pyresult json :=
  match v with
  | JDict items => Ok (default dflt (items_get items key))
  | _ => Exc (no_attribute v "get")
  end.

(** [v == "text"] *)
Definition eq_str (v : json) (text : string) : bool :=
  match v with
  | JStr s => String.eqb s text
  | _ => false
  end.

End PyObj.

(* ===================================================================== *)
(** * Pillow images *)
(* ===================================================================== *)

(** A pixel is the list of its band values; [rows] holds [height] rows of
    [width] pixels each, top row first. *)
Definition pixel : Type := list Z.

Record pil_image : Type := mkImage {
  mode : string;
  width : Z;
  height : Z;
  rows : list (list pixel)
}.

(** [im.size] agrees with the pixel data. *)
Definition well_formed (im : pil_image) : Prop :=
  Z.of_nat (length (rows im)) = height im /\
  0 <= width im /\
  Forall (fun r => Z.of_nat (length r) = width im) (rows im).

Module PIL.

(** Number of bands of the common modes. *)
Definition bands (m : string) : nat :=
  if String.eqb m "RGB" || String.eqb m "YCbCr" || String.eqb m "LAB" || String.eqb m "HSV" then 3
  else if String.eqb m "RGBA" || String.eqb m "CMYK" || String.eqb m "RGBX" then 4
  else if String.eqb m "LA" || String.eqb m "PA" then 2
  else 1.

(** A pixel read outside the image is zero in every band. *)
Definition blank (m : string) : pixel := repeat 0 (bands m).

Definition getpixel (im : pil_image) (x y : Z) : pixel :=
  if (0 <=? x) && (x <? width im) && (0 <=? y) && (y <? height im)
  then match rows im !! Z.to_nat y with
       | Some r => default (blank (mode im)) (r !! Z.to_nat x)
       | None => blank (mode im)
       end
  else blank (mode im).

(** [range(lo, hi)] *)
Definition zrange (lo hi : Z) : list Z :=
  map (fun i => lo + Z.of_nat i) (seq 0 (Z.to_nat (hi - lo))).

(** [im.crop((x0, y0, x1, y1))], the box being (left, upper, right,
    lower): the rectangle of columns [x0..x1-1] and rows [y0..y1-1]; a box
    with [x1 < x0] or [y1 < y0] is refused with [ValueError]. *)
Definition crop (im : pil_image) (box : Z * Z * Z * Z) : pyresult pil_image :=
  let '(x0, y0, x1, y1) := box in
  if x1 <? x0 then Exc "Coordinate 'right' is less than 'left'"
  else if y1 <? y0 then Exc "Coordinate 'lower' is less than 'upper'"
  else Ok {| mode := mode im;
             width := x1 - x0;
             height := y1 - y0;
             rows := map (fun y => map (fun x => getpixel im x y) (zrange x0 x1))
                         (zrange y0 y1) |}.

End PIL.

(* ===================================================================== *)
(** * Python floats (IEEE 754 binary64) *)
(* ===================================================================== *)

Module PyFloat.

(** A finite float is [sign * mant * 2^exp2]; [neg] is the sign bit. *)
Record float : Type := mkFloat { neg : bool; mant : Z; exp2 : Z }.

(** Number of bits of a non-negative integer: [n.bit_length()]. *)
Definition bit_length (n : Z) : Z := if n =? 0 then 0 else Z.log2 n + 1.

(** Round the exact non-negative value [p * 2^e] to a 53-bit significand,
    ties to the even significand.  (The exponent range of binary64 is not
    modelled: the values of this program stay far inside it.) *)
Definition round53 (p e : Z) : Z * Z :=
  let n := bit_length p in
  if n <=? 53 then (p, e)
  else
    let s := n - 53 in
    let q := Z.shiftr p s in
    let r := Z.land p (Z.ones s) in
    let half := Z.shiftl 1 (s - 1) in
    let up := (half <? r) || ((r =? half) && Z.odd q) in
    ((if up then q + 1 else q), e + s).

(** [float(n)] for an [int]. *)
Definition of_int (n : Z) : float :=
  let '(m, e) := round53 (Z.abs n) 0 in
  {| neg := n <? 0; mant := m; exp2 := e |}.

(** [x * y] *)
Definition mul (x y : float) : float :=
  let '(m, e) := round53 (mant x * mant y) (exp2 x + exp2 y) in
  {| neg := xorb (neg x) (neg y); mant := m; exp2 := e |}.

(** [int(x)]: truncation toward zero. *)
Definition to_int (x : float) : Z :=
  let magnitude :=
    if 0 <=? exp2 x then Z.shiftl (mant x) (exp2 x)
    else Z.shiftr (mant x) (- exp2 x) in
  if neg x then - magnitude else magnitude.

(** The literal [0.27]: the double nearest to 27/100,
    [0x1.147ae147ae148p-2]. *)
Definition lit_0_27 : float :=
  {| neg := false; mant := 4863887597560136; exp2 := -54 |}.

(** The literal [0.12]: the double nearest to 12/100,
    [0x1.eb851eb851eb8p-4]. *)
Definition lit_0_12 : float :=
  {| neg := false; mant := 8646911284551352; exp2 := -56 |}.

(** The literal [0.29], [0x1.28f5c28f5c28fp-2]; not used by the service,
    kept as a check of the rounding model. *)
Definition lit_0_29 : float :=
  {| neg := false; mant := 5224175567749775; exp2 := -54 |}.

(** The same value in the Standard Library's IEEE 754 model. *)
Definition to_spec (x : float) : SpecFloat.spec_float :=
  match mant x with
  | Zpos m => SpecFloat.S754_finite (neg x) m (exp2 x)
  | _ => SpecFloat.S754_zero (neg x)
  end.

Definition spec_float_eqb (x y : SpecFloat.spec_float) : bool :=
  match x, y with
  | SpecFloat.S754_finite s1 m1 e1, SpecFloat.S754_finite s2 m2 e2 =>
      Bool.eqb s1 s2 && Pos.eqb m1 m2 && Z.eqb e1 e2
  | SpecFloat.S754_zero s1, SpecFloat.S754_zero s2 => Bool.eqb s1 s2
  | _, _ => false
  end.

(** [c * float(n)] computed here and by [SpecFloat.SFmul] for binary64. *)
Definition agrees_with_SFmul (c : float) (n : Z) : bool :=
  spec_float_eqb (to_spec (mul c (of_int n)))
                 (SpecFloat.SFmul 53 1024 (to_spec c) (to_spec (of_int n))).

End PyFloat.


(* ===================================================================== *)
(** * Effects: the world outside the process *)
(* ===================================================================== *)

(** What [requests.get] and [requests.post] return. *)
Record http_response : Type := mkResponse {
  status_code : Z;
  text : string;
  content : bytes;
  json_body : pyresult json     (* [response.json()] *)
}.

(** The calls that leave the handlers, in the order they are made. *)
Inductive event : Type :=
| EvTempFile (original_name : string) (file_bytes : bytes)
| EvCropper (file_bytes : bytes) (original_name : string)
| EvOpen (data : bytes)
| EvConvert (im : pil_image) (to_mode : string)
| EvSave (im : pil_image)
| EvGet (url : string)
| EvPost (filename : string) (image_bytes : bytes).

(** The state the handlers share: the log of the calls made so far and the
    attribute [_process_with_cropper._last_name]. *)
Record world : Type := mkWorld {
  events : list event;
  last_name : option string
}.

(** The collaborators.  Pillow, the file system and the cropper answer by
    their arguments; the network may also answer by what happened before.
    - [write_temp_file name data]: creating the temporary directory,
      opening [name] in it and writing [data] (lines 61-64), for a name that
      the new directory does not refuse outright;
    - [open_error name]: the text of the error of that [open] for a name
      that the new directory refuses;
    - [cropper_process_image data name]: the cropper's run on the written
      file, up to the removal of the temporary directory (lines 66-70). *)
Record externals : Type := mkExternals {
  write_temp_file : string -> bytes -> pyresult unit;
  open_error : string -> string;
  image_open : bytes -> pyresult pil_image;
  image_convert : pil_image -> string -> pyresult pil_image;
  image_save_png : pil_image -> pyresult (bytes);
  cropper_process_image : bytes -> string -> pyresult (gmap string (option pil_image));
  requests_get : list event -> string -> pyresult http_response;
  requests_post : list event -> string -> bytes -> pyresult http_response
}.

(** Computations of the handlers. *)
Definition M (A : Type) : Type := world -> outcome A * world.

Definition ret {A} (a : A) : M A := fun w => (Return a, w).

Definition bind {A B} (m : M A) (k : A -> M B) : M B :=
  fun w =>
    match m w with
    | (Return a, w') => k a w'
    | (RaiseHTTP st d, w') => (RaiseHTTP st d, w')
    | (Raise msg, w') => (Raise msg, w')
    end.

Notation "'do' x <- m ; k" := (bind m (fun x => k))
  (at level 10, x name, m at level 100, k at level 200).
Notation "'run' m ; k" := (bind m (fun _ => k))
  (at level 10, m at level 100, k at level 200).

(** [raise HTTPException(status_code=st, detail=d)] *)
Definition raise_http {A} (st : Z) (d : string) : M A := fun w => (RaiseHTTP st d, w).

(** [raise Exception(msg)] *)
Definition raise_exception {A} (msg : string) : M A := fun w => (Raise msg, w).

Definition lift_outcome {A} (o : outcome A) : M A := fun w => (o, w).

Definition lift {A} (r : pyresult A) : M A :=
  match r with
  | Ok a => ret a
  | Exc msg => raise_exception msg
  end.

(** One call to a collaborator: log it, then take its answer. *)
Definition call {A} (ev : event) (answer : list event -> pyresult A) : M A :=
  fun w =>
    let w' := {| events := events w ++ [ev]; last_name := last_name w |} in
    lift (answer (events w)) w'.

(** [try: m  except Exception as e: handler(str(e))].  An [HTTPException]
    is an [Exception] too; its text is [status: detail]. *)
Definition try_except {A} (m : M A) (handler : string -> M A) : M A :=
  fun w =>
    match m w with
    | (Return a, w') => (Return a, w')
    | (RaiseHTTP st d, w') => handler (PyStr.of_Z st +:+ ": " +:+ d) w'
    | (Raise msg, w') => handler msg w'
    end.

(** [try: m  except HTTPException: raise  except Exception as exc:
    handler(str(exc))] *)
Definition try_except_reraise_http {A} (m : M A) (handler : string -> M A) : M A :=
  fun w =>
    match m w with
    | (Return a, w') => (Return a, w')
    | (RaiseHTTP st d, w') => (RaiseHTTP st d, w')
    | (Raise msg, w') => handler msg w'
    end.

(* ===================================================================== *)
(** * The service: [fastapi_app.py] *)
(* ===================================================================== *)

(** A FastAPI [UploadFile]: the declared content type, the client's file
    name, and the body that [await image.read()] returns. *)
Record upload_file : Type := mkUpload {
  content_type : option string;
  filename : option string;
  body : bytes
}.

(** The bodies of the two [JSONResponse]s ([status] is "success"). *)
Inductive json_response : Type :=
| PreviewResponse (filename url : string)
| SplitResponse (top_name top_url bottom_name bottom_url : string).

(** [x or dflt] for an optional string: [None] and [""] are falsy. *)
Definition str_or (x : option string) (dflt : string) : string :=
  match x with
  | Some s => if String.eqb s "" then dflt else s
  | None => dflt
  end.

(** [not data] for [bytes]. *)
Definition is_empty (data : bytes) : bool :=
  match data with
  | [] => true
  | _ :: _ => false
  end.

Definition supported_suffixes : list string := ["jpeg"; "jpg"; "png"; "bmp"; "tiff"].

Definition _validate_image_content_type (upload : upload_file) : outcome unit :=
  let content_type := PyStr.lower (str_or (content_type upload) "") in
  if negb (existsb (fun ext => PyStr.endswith content_type ext) supported_suffixes)
  then RaiseHTTP 400 "Unsupported file type. Upload PNG/JPG/JPEG/BMP/TIFF."
  else Return tt.

(** The URL rewriting of [upload_to_tmpfiles], on the [str] it received. *)
Definition normalize_file_url (file_url : string) : string :=
  let file_url :=
    if PyStr.startswith file_url "http://"
    then PyStr.replace file_url "http://" "https://"
    else file_url in
  if negb (PyStr.contains "/dl/" file_url)
  then PyStr.replace file_url "tmpfiles.org/" "tmpfiles.org/dl/"
  else file_url.

(** The crop box of the preview: [(left_trim, 0, new_right, new_bottom)]. *)
Definition preview_box (width height : Z) : Z * Z * Z * Z :=
  let left_trim := PyFloat.to_int (PyFloat.mul PyFloat.lit_0_27 (PyFloat.of_int width)) in
  let bottom_trim := PyFloat.to_int (PyFloat.mul PyFloat.lit_0_12 (PyFloat.of_int height)) in
  let new_right := Z.max (left_trim + 1) width in
  let new_bottom := Z.max 1 (height - bottom_trim) in
  (left_trim, 0, new_right, new_bottom).

(** [result.get("perspective_corrected") or result.get("cropped_table") or
    result.get("original")]; an image is truthy, [None] is not. *)
Definition select_candidate (result : gmap string (option pil_image)) : option pil_image :=
  match mjoin (result !! "perspective_corrected") with
  | Some im => Some im
  | None =>
      match mjoin (result !! "cropped_table") with
      | Some im => Some im
      | None => mjoin (result !! "original")
      end
  end.

(** The two crop boxes of the split: [mid = height // 2]. *)
Definition split_boxes (width height : Z) : (Z * Z * Z * Z) * (Z * Z * Z * Z) :=
  let mid := height / 2 in
  ((0, 0, width, mid), (0, mid, width, height)).

(** Lines 78-88 of [upload_to_tmpfiles]: what the uploader makes of the
    hosting service's answer. *)
Definition read_upload_response (response : http_response) : pyresult string :=
  let failed : pyresult string := Exc ("Upload failed: " +:+ text response) in
  if status_code response =? 200 then
    having data <- json_body response;
    having status <- PyObj.get data "status" JNone;
    if PyObj.eq_str status "success" then
      having inner <- PyObj.get data "data" (JDict []);
      having file_url <- PyObj.get inner "url" (JStr "");
      if PyObj.truthy file_url then
        match file_url with
        | JStr u => Ok (normalize_file_url u)
        | _ => Exc (PyObj.no_attribute file_url "startswith")
        end
      else failed
    else failed
  else failed.

Section Service.

Variable E : externals.

Definition _pil_to_png_bytes (pil_img : pil_image) : M bytes :=
  do save_img <-
    (if negb (String.eqb (mode pil_img) "RGB" || String.eqb (mode pil_img) "RGBA")
     then call (EvConvert pil_img "RGB") (fun _ => image_convert E pil_img "RGB")
     else ret pil_img);
  call (EvSave save_img) (fun _ => image_save_png E save_img).

(** Lines 61-64 of [_process_with_cropper]: the upload is written under
    [original_name] in a new temporary directory. *)
Definition write_input (original_name : string) (file_bytes : bytes) : pyresult unit :=
  if PyStr.contains (String "000" EmptyString) original_name
  then Exc "embedded null byte"
  else if PyPath.refused_in_fresh_directory original_name
  then Exc (open_error E original_name)
  else write_temp_file E original_name file_bytes.

Definition _process_with_cropper (file_bytes : bytes)
  : M (gmap string (option pil_image) * string) :=
  fun w =>
    let original_name := default "uploaded.png" (last_name w) in
    (run call (EvTempFile original_name file_bytes)
              (fun _ => write_input original_name file_bytes);
     do result <- call (EvCropper file_bytes original_name)
                       (fun _ => cropper_process_image E file_bytes original_name);
     let base_name := PyPath.splitext_root (PyPath.basename original_name) in
     ret (result, base_name)) w.

(** The body of the [try] of [upload_to_tmpfiles]: the POST, then the
    reading of its answer. *)
Definition upload_attempt (image_bytes : bytes) (filename : string) : M string :=
  do response <- call (EvPost filename image_bytes)
                      (fun log => requests_post E log filename image_bytes);
  lift (read_upload_response response).

Definition upload_to_tmpfiles (image_bytes : bytes) (filename : string) : M string :=
  try_except (upload_attempt image_bytes filename)
    (fun e => raise_exception ("Failed to upload to tmpfiles.org: " +:+ e)).

(** [setattr(_process_with_cropper, "_last_name", name)] *)
Definition set_last_name (name : string) : M unit :=
  fun w => (Return tt, {| events := events w; last_name := Some name |}).

(** Lines 116-127 of [crop_and_perspective_correction]: trim the selected
    image, encode it, publish it and build the response. *)
Definition trim_and_publish (image : upload_file) (out_img : pil_image) : M json_response :=
  do out_img <- lift (PIL.crop out_img (preview_box (width out_img) (height out_img)));
  do png_bytes <- _pil_to_png_bytes out_img;
  let name_base := PyPath.splitext_root (PyPath.basename (str_or (filename image) "uploaded")) in
  let filename := name_base +:+ "_preview.png" in
  do url <- upload_to_tmpfiles png_bytes filename;
  ret (PreviewResponse filename url).

Definition crop_and_perspective_correction (image : upload_file) : M json_response :=
  try_except_reraise_http
    (run lift_outcome (_validate_image_content_type image);
     run set_last_name (str_or (filename image) "uploaded.png");
     let file_bytes := body image in
     if is_empty file_bytes then raise_http 400 "Empty file uploaded" else
     do processed <- _process_with_cropper file_bytes;
     let result := fst processed in
     match select_candidate result with
     | None => raise_http 500 "Processing failed to produce an output image"
     | Some out_img => trim_and_publish image out_img
     end)
    (fun exc => raise_http 500 ("Processing failed: " +:+ exc)).

(** Lines 148-176 of [split_image_halves]: the uploaded file when there is
    one, else the download of a non-empty [image_url], else a 400.  The
    result is [(file_bytes, original_name)]. *)
Definition resolve_source (image : option upload_file) (image_url : option string)
  : M (bytes * string) :=
  match image with
  | Some image =>
      run lift_outcome (_validate_image_content_type image);
      let file_bytes := body image in
      if is_empty file_bytes then raise_http 400 "Empty file uploaded" else
      ret (file_bytes, str_or (filename image) "uploaded.png")
  | None =>
      if negb (String.eqb (str_or image_url "") "") then
        try_except_reraise_http
          (let url := str_or image_url "" in
           let url :=
             if PyStr.startswith url "http://"
             then PyStr.replace url "http://" "https://" else url in
           let url :=
             if PyStr.contains "tmpfiles.org" url && negb (PyStr.contains "/dl/" url)
             then PyStr.replace url "tmpfiles.org/" "tmpfiles.org/dl/" else url in
           do resp <- call (EvGet url) (fun log => requests_get E log url);
           if negb (status_code resp =? 200)
           then raise_http 400 ("Failed to download image: HTTP " +:+ PyStr.of_Z (status_code resp))
           else
             let file_bytes := content resp in
             let original_name :=
               PyPath.basename (str_or (Some (PyStr.before_first "?" url)) "downloaded.png") in
             let original_name := str_or (Some original_name) "downloaded.png" in
             ret (file_bytes, original_name))
          (fun exc => raise_http 400 ("Failed to download image from URL: " +:+ exc))
      else raise_http 400 "Provide either 'image' file or 'image_url' form field"
  end.

(** Lines 178-193: decode, convert to RGB, cut at [mid], encode both
    halves and name them.  The result is
    [(top_bytes, top_name, bottom_bytes, bottom_name)]. *)
Definition bisect_and_encode (source : bytes * string)
  : M (bytes * string * bytes * string) :=
  let '(file_bytes, original_name) := source in
  do pil_img <- call (EvOpen file_bytes) (fun _ => image_open E file_bytes);
  do pil_img <- call (EvConvert pil_img "RGB") (fun _ => image_convert E pil_img "RGB");
  let boxes := split_boxes (width pil_img) (height pil_img) in
  do top_half <- lift (PIL.crop pil_img (fst boxes));
  do bottom_half <- lift (PIL.crop pil_img (snd boxes));
  do top_bytes <- _pil_to_png_bytes top_half;
  do bottom_bytes <- _pil_to_png_bytes bottom_half;
  let name_base := PyPath.splitext_root (PyPath.basename original_name) in
  let top_name := name_base +:+ "_top_half.png" in
  let bottom_name := name_base +:+ "_bottom_half.png" in
  ret (top_bytes, top_name, bottom_bytes, bottom_name).

(** Lines 195-202: publish the top half, then the bottom half, and build
    the response. *)
Definition publish_halves (encoded : bytes * string * bytes * string)
  : M json_response :=
  let '(top_bytes, top_name, bottom_bytes, bottom_name) := encoded in
  do top_url <- upload_to_tmpfiles top_bytes top_name;
  do bottom_url <- upload_to_tmpfiles bottom_bytes bottom_name;
  ret (SplitResponse top_name top_url bottom_name bottom_url).

Definition split_image_halves (image : option upload_file) (image_url : option string)
  : M json_response :=
  try_except_reraise_http
    (do source <- resolve_source image image_url;
     do encoded <- bisect_and_encode source;
     publish_halves encoded)
    (fun exc => raise_http 500 ("Split failed: " +:+ exc)).

End Service.

(** The world before the first request. *)
Definition fresh_world : world := {| events := []; last_name := None |}.

(* ===================================================================== *)
(** * Sample collaborators *)
(* ===================================================================== *)

Module Sample.

(** A 2 x 3 RGB image: three rows of two pixels. *)
Definition rgb_2x3 : pil_image :=
  {| mode := "RGB"; width := 2; height := 3;
     rows := [ [[255; 0; 0]; [0; 255; 0]];
               [[0; 0; 255]; [9; 9; 9]];
               [[1; 2; 3]; [4; 5; 6]] ] |}.

Definition png_magic : bytes := [Byte.x89; Byte.x50; Byte.x4e; Byte.x47].

(** The hosting service's answer to an accepted upload. *)
Definition upload_accepted (filename : string) : http_response :=
  {| status_code := 200;
     text := "ok";
     content := [];
     json_body :=
       Ok (JDict [("status", JStr "success");
                  ("data", JDict [("url", JStr ("http://tmpfiles.org/42/" +:+ filename))])]) |}.

(** The hosting service's answer to a refused upload. *)
Definition upload_refused : http_response :=
  {| status_code := 503;
     text := "Service Unavailable";
     content := [];
     json_body := Exc "Expecting value: line 1 column 1 (char 0)" |}.

Definition is_post (ev : event) : bool :=
  match ev with
  | EvPost _ _ => true
  | _ => false
  end.

(** Collaborators that all succeed: every input decodes to [rgb_2x3], the
    cropper returns [candidates], every download and upload is accepted. *)
Definition friendly (candidates : gmap string (option pil_image)) : externals :=
  {| write_temp_file := fun _ _ => Ok tt;
     open_error := fun name => "[Errno 2] No such file or directory: '/tmp/tmpw/" +:+ name +:+ "'";
     image_open := fun _ => Ok rgb_2x3;
     image_convert := fun im to_mode =>
       Ok {| mode := to_mode; width := width im; height := height im; rows := rows im |};
     image_save_png := fun im => Ok (png_magic ++ [Byte.x00]);
     cropper_process_image := fun _ _ => Ok candidates;
     requests_get := fun _ _ =>
       Ok {| status_code := 200; text := ""; content := png_magic; json_body := Exc "not JSON" |};
     requests_post := fun _ filename _ => Ok (upload_accepted filename) |}.

(** As [friendly], but the hosting service accepts one upload only. *)
Definition second_upload_refused : externals :=
  {| write_temp_file := write_temp_file (friendly ∅);
     open_error := open_error (friendly ∅);
     image_open := image_open (friendly ∅);
     image_convert := image_convert (friendly ∅);
     image_save_png := image_save_png (friendly ∅);
     cropper_process_image := cropper_process_image (friendly ∅);
     requests_get := requests_get (friendly ∅);
     requests_post := fun log filename _ =>
       if existsb is_post log then Ok upload_refused else Ok (upload_accepted filename) |}.

Definition png_upload : upload_file :=
  {| content_type := Some "image/png"; filename := Some "scan.png"; body := png_magic |}.

End Sample.

(* ===================================================================== *)
(** * Specification-level notions *)
(* ===================================================================== *)

(** Two code units are the same letter up to ASCII case. *)
Definition same_char_ignoring_case (a b : ascii) : Prop :=
  a = b \/
  ((65 <= nat_of_ascii a <= 90)%nat /\ nat_of_ascii b = (nat_of_ascii a + 32)%nat) \/
  ((65 <= nat_of_ascii b <= 90)%nat /\ nat_of_ascii a = (nat_of_ascii b + 32)%nat).

(** Two strings are equal up to ASCII case. *)
Inductive same_ignoring_case : string -> string -> Prop :=
| sic_empty : same_ignoring_case "" ""
| sic_char a b s t :
    same_char_ignoring_case a b ->
    same_ignoring_case s t ->
    same_ignoring_case (String a s) (String b t).

(** [s] ends, up to ASCII case, with [suffix]. *)
Definition ends_with_ignoring_case (s suffix : string) : Prop :=
  exists before tail, s = before +:+ tail /\ same_ignoring_case tail suffix.

(** Every character is one of [a]..[z]. *)
Fixpoint lowercase_letters (s : string) : bool :=
  match s with
  | EmptyString => true
  | String c s' =>
      (97 <=? nat_of_ascii c)%nat && (nat_of_ascii c <=? 122)%nat && lowercase_letters s'
  end.


(** The candidate names, best first. *)
Definition candidate_priority : list string :=
  ["perspective_corrected"; "cropped_table"; "original"].

(** The first name of [names] under which [result] holds an image. *)
Fixpoint first_present (result : gmap string (option pil_image)) (names : list string)
  : option pil_image :=
  match names with
  | [] => None
  | name :: rest =>
      match result !! name with
      | Some (Some im) => Some im
      | _ => first_present result rest
      end
  end.

(** The split endpoint's source rule as the specification words it: a
    request with both a file and a URL, or with neither, is answered 400
    and nothing else happens. *)
Definition split_requires_exactly_one_source : Prop :=
  forall (E : externals) (image : option upload_file) (image_url : option string) (w : world),
    (is_Some image /\ is_Some image_url) \/ (image = None /\ image_url = None) ->
    exists detail, split_image_halves E image image_url w = (RaiseHTTP 400 detail, w).


(* ===================================================================== *)
(** * Notions used to describe the handlers' runs *)
(* ===================================================================== *)

(** The world after one more call. *)
Definition with_event (w : world) (ev : event) : world :=
  {| events := events w ++ [ev]; last_name := last_name w |}.

(** No run of [m] raises an [HTTPException]. *)
Definition never_http {A} (m : M A) : Prop :=
  forall w st d w', m w <> (RaiseHTTP st d, w').

(** Lines 157-161 of [split_image_halves]: the URL that is fetched for the
    form value [image_url]. *)
Definition download_url (image_url : string) : string :=
  let url := image_url in
  let url :=
    if PyStr.startswith url "http://"
    then PyStr.replace url "http://" "https://" else url in
  if PyStr.contains "tmpfiles.org" url && negb (PyStr.contains "/dl/" url)
  then PyStr.replace url "tmpfiles.org/" "tmpfiles.org/dl/" else url.

(** Lines 168-170: the file name derived from the fetched URL. *)
Definition downloaded_name (url : string) : string :=
  let original_name :=
    PyPath.basename (str_or (Some (PyStr.before_first "?" url)) "downloaded.png") in
  str_or (Some original_name) "downloaded.png".

(** [a] and [b] differ at a position that both have. *)
Fixpoint mismatch (a b : string) : bool :=
  match a, b with
  | String x a', String y b' => if Ascii.eqb x y then mismatch a' b' else true
  | _, _ => false
  end.

(** Every non-empty tail of [old] differs from [pat] at a common position:
    no occurrence of [pat] can begin inside an occurrence of [old]. *)
Fixpoint tails_mismatch (old pat : string) : bool :=
  match old with
  | EmptyString => true
  | String _ old' => mismatch old pat && tails_mismatch old' pat
  end.

(** The character [c] does not occur in [s]. *)
Fixpoint char_free (c : ascii) (s : string) : bool :=
  match s with
  | EmptyString => true
  | String a s' => negb (Ascii.eqb a c) && char_free c s'
  end.

(** The uploads logged in a list of events, oldest first. *)
Fixpoint posts (evs : list event) : list (string * bytes) :=
  match evs with
  | [] => []
  | EvPost name data :: rest => (name, data) :: posts rest
  | _ :: rest => posts rest
  end.

(** No run of [m] changes the stored file name. *)
Definition keeps_last_name {A} (m : M A) : Prop :=
  forall w o w', m w = (o, w') -> last_name w' = last_name w.

(** Further sample collaborators and uploads. *)
Module Cases.

(** A cropper result that holds only the original image. *)
Definition original_only : gmap string (option pil_image) :=
  {[ "original" := Some Sample.rgb_2x3 ]}.

Definition with_cropper (answer : pyresult (gmap string (option pil_image))) : externals :=
  {| write_temp_file := write_temp_file (Sample.friendly ∅);
     open_error := open_error (Sample.friendly ∅);
     image_open := image_open (Sample.friendly ∅);
     image_convert := image_convert (Sample.friendly ∅);
     image_save_png := image_save_png (Sample.friendly ∅);
     cropper_process_image := fun _ _ => answer;
     requests_get := requests_get (Sample.friendly ∅);
     requests_post := requests_post (Sample.friendly ∅) |}.

Definition with_download (answer : pyresult http_response) : externals :=
  {| write_temp_file := write_temp_file (Sample.friendly ∅);
     open_error := open_error (Sample.friendly ∅);
     image_open := image_open (Sample.friendly ∅);
     image_convert := image_convert (Sample.friendly ∅);
     image_save_png := image_save_png (Sample.friendly ∅);
     cropper_process_image := cropper_process_image (Sample.friendly ∅);
     requests_get := fun _ _ => answer;
     requests_post := requests_post (Sample.friendly ∅) |}.

Definition undecodable : externals :=
  {| write_temp_file := write_temp_file (Sample.friendly ∅);
     open_error := open_error (Sample.friendly ∅);
     image_open := fun _ => Exc "cannot identify image file";
     image_convert := image_convert (Sample.friendly ∅);
     image_save_png := image_save_png (Sample.friendly ∅);
     cropper_process_image := cropper_process_image (Sample.friendly ∅);
     requests_get := requests_get (Sample.friendly ∅);
     requests_post := requests_post (Sample.friendly ∅) |}.

Definition unsavable : externals :=
  {| write_temp_file := write_temp_file (Sample.friendly ∅);
     open_error := open_error (Sample.friendly ∅);
     image_open := image_open (Sample.friendly ∅);
     image_convert := image_convert (Sample.friendly ∅);
     image_save_png := fun _ => Exc "cannot write empty image as PNG";
     cropper_process_image := cropper_process_image (Sample.friendly ∅);
     requests_get := requests_get (Sample.friendly ∅);
     requests_post := requests_post (Sample.friendly ∅) |}.

Definition with_upload (answer : pyresult http_response) : externals :=
  {| write_temp_file := write_temp_file (Sample.friendly ∅);
     open_error := open_error (Sample.friendly ∅);
     image_open := image_open (Sample.friendly ∅);
     image_convert := image_convert (Sample.friendly ∅);
     image_save_png := image_save_png (Sample.friendly ∅);
     cropper_process_image := cropper_process_image (Sample.friendly ∅);
     requests_get := requests_get (Sample.friendly ∅);
     requests_post := fun _ _ _ => answer |}.

Definition uploads_refused : externals :=
  {| write_temp_file := write_temp_file (Sample.friendly ∅);
     open_error := open_error (Sample.friendly ∅);
     image_open := image_open (Sample.friendly ∅);
     image_convert := image_convert (Sample.friendly ∅);
     image_save_png := image_save_png (Sample.friendly ∅);
     cropper_process_image := cropper_process_image (Sample.friendly ∅);
     requests_get := requests_get (Sample.friendly ∅);
     requests_post := fun _ _ _ => Ok Sample.upload_refused |}.

(** As [Sample.friendly], but every input decodes to [im]. *)
Definition decodes_to (im : pil_image) : externals :=
  {| write_temp_file := write_temp_file (Sample.friendly ∅);
     open_error := open_error (Sample.friendly ∅);
     image_open := fun _ => Ok im;
     image_convert := image_convert (Sample.friendly ∅);
     image_save_png := image_save_png (Sample.friendly ∅);
     cropper_process_image := cropper_process_image (Sample.friendly ∅);
     requests_get := requests_get (Sample.friendly ∅);
     requests_post := requests_post (Sample.friendly ∅) |}.


(** A 3 x 1 RGB image: a single row. *)
Definition line_3x1 : pil_image :=
  {| mode := "RGB"; width := 3; height := 1;
     rows := [ [[1; 1; 1]; [2; 2; 2]; [3; 3; 3]] ] |}.

Definition not_found : http_response :=
  {| status_code := 404; text := "Not Found"; content := []; json_body := Exc "not JSON" |}.

Definition empty_upload : upload_file :=
  {| content_type := Some "image/png"; filename := Some "a.png"; body := [] |}.

End Cases.

(** No run of [m] adds an upload to the log. *)
Definition adds_no_post {A} (m : M A) : Prop :=
  forall w o w', m w = (o, w') -> posts (events w') = posts (events w).

(** The event is not an upload. *)
Definition not_a_post (ev : event) : bool :=
  match ev with
  | EvPost _ _ => false
  | _ => true
  end.

(* ===================================================================== *)
(** * Python strings: facts *)
(* ===================================================================== *)

Example lower_mixed :
  PyStr.lower "Image/JPEG" = "image/jpeg" /\
  PyStr.lower_char (ascii_of_nat 192) = ascii_of_nat 224 /\
  PyStr.lower_char (ascii_of_nat 215) = ascii_of_nat 215.
Proof. repeat split; reflexivity. Qed.

Example replace_all_occurrences :
  PyStr.replace "a-b-c" "-" "+-" = "a+-b+-c".
Proof. reflexivity. Qed.

Example replace_no_overlap : PyStr.replace "aaaa" "aa" "b" = "bb".
Proof. reflexivity. Qed.

Example str_of_int : PyStr.of_Z 404 = "404" /\ PyStr.of_Z (-7) = "-7".
Proof. split; reflexivity. Qed.

Example splitext_cases :
  PyPath.splitext_root (PyPath.basename "a/b/scan.v2.png") = "scan.v2" /\
  PyPath.splitext_root ".bashrc" = ".bashrc" /\
  PyPath.splitext_root "..x" = "..x" /\
  PyPath.basename "http://h/p/" = "".
Proof. repeat split; reflexivity. Qed.

Lemma lower_char_lowercase c e :
  (97 <= nat_of_ascii e <= 122)%nat ->
  PyStr.lower_char c = e <-> same_char_ignoring_case c e.
Proof.
  intros He. unfold PyStr.lower_char, same_char_ignoring_case.
  pose proof (nat_ascii_bounded c) as Hc.
  pose proof (ascii_nat_embedding c) as Hback.
  remember (nat_of_ascii c) as n eqn:Hn.
  destruct (Nat.leb_spec 65 n), (Nat.leb_spec n 90),
           (Nat.leb_spec 192 n), (Nat.leb_spec n 222), (Nat.eqb_spec n 215);
    cbn [andb orb negb]; try lia;
    lazymatch goal with
    | |- ascii_of_nat _ = _ <-> _ =>
        split;
        [ intros <-; rewrite nat_ascii_embedding in * by lia;
          first [ lia | right; left; lia ]
        | intros [-> | [[? Hshift] | [? ?]]]; try lia;
          rewrite <- Hshift; apply ascii_nat_embedding ]
    | |- _ =>
        split;
        [ intros ->; now left
        | intros [-> | [[? ?] | [? ?]]]; [reflexivity | lia | lia] ]
    end.
Qed.

Lemma lower_lowercase t ext :
  lowercase_letters ext = true ->
  PyStr.lower t = ext <-> same_ignoring_case t ext.
Proof.
  revert t. induction ext as [|e ext IH]; intros t Hext.
  - split.
    + destruct t; [constructor | discriminate].
    + inversion 1. reflexivity.
  - cbn [lowercase_letters] in Hext. apply andb_true_iff in Hext as [He Hext].
    apply andb_true_iff in He as [He1 He2].
    apply Nat.leb_le in He1, He2.
    split.
    + destruct t as [|c t]; [discriminate|]. simpl. intros [= Hc Ht].
      constructor.
      * apply lower_char_lowercase; [lia | exact Hc].
      * apply IH; assumption.
    + inversion 1 as [|a b s u Hab Hsu]; subst. simpl. f_equal.
      * apply lower_char_lowercase; [lia | exact Hab].
      * apply IH; assumption.
Qed.

Lemma endswith_lower s ext :
  PyStr.endswith (PyStr.lower s) ext = true <->
  exists before tail, s = before +:+ tail /\ PyStr.lower tail = ext.
Proof.
  induction s as [|c s IH].
  - simpl. rewrite orb_false_r. split.
    + intros H. exists "", "". split; [reflexivity|].
      destruct ext; [reflexivity | discriminate].
    + intros (before & tail & Hs & Ht).
      destruct before, tail; try discriminate. now subst.
  - cbn [PyStr.lower PyStr.endswith]. rewrite orb_true_iff, IH. split.
    + intros [H | (before & tail & -> & Ht)].
      * apply String.eqb_eq in H.
        exists "", (String c s). split; [reflexivity | exact H].
      * exists (String c before), tail. split; [reflexivity | exact Ht].
    + intros (before & tail & Hs & Ht).
      destruct before as [|b before].
      * left. simpl in Hs. subst tail. apply String.eqb_eq. exact Ht.
      * right. simpl in Hs. injection Hs as _ Hs.
        exists before, tail. split; assumption.
Qed.

Lemma endswith_lower_ignoring_case s ext :
  lowercase_letters ext = true ->
  PyStr.endswith (PyStr.lower s) ext = true <-> ends_with_ignoring_case s ext.
Proof.
  intros Hext. rewrite endswith_lower. unfold ends_with_ignoring_case.
  split; intros (before & tail & Hs & Ht); exists before, tail; split;
    try assumption; now apply (lower_lowercase tail ext Hext).
Qed.

Lemma supported_suffixes_lowercase ext :
  In ext supported_suffixes -> lowercase_letters ext = true.
Proof.
  unfold supported_suffixes. simpl.
  intros [<- | [<- | [<- | [<- | [<- | []]]]]]; reflexivity.
Qed.

(* ===================================================================== *)
(** * Content-type validation *)
(* ===================================================================== *)

(** C6.  The validator accepts a declared content type exactly when the
    string ends, up to ASCII case, with one of jpeg, jpg, png, bmp, tiff;
    every other declared type is refused with status 400; and running the
    validator leaves the world as it was. *)
Theorem validate_accepts_iff_suffix (upload : upload_file) :
  (_validate_image_content_type upload = Return tt <->
   exists ext, In ext supported_suffixes /\
               ends_with_ignoring_case (str_or (content_type upload) "") ext) /\
  (_validate_image_content_type upload = Return tt \/
   _validate_image_content_type upload =
     RaiseHTTP 400 "Unsupported file type. Upload PNG/JPG/JPEG/BMP/TIFF.") /\
  (forall w, snd (lift_outcome (_validate_image_content_type upload) w) = w).
Proof.
  unfold _validate_image_content_type.
  set (ct := str_or (content_type upload) "").
  destruct (existsb (fun ext => PyStr.endswith (PyStr.lower ct) ext) supported_suffixes)
    eqn:Hany; simpl.
  - split; [|split; [now left | reflexivity]].
    split; [intros _ | reflexivity].
    apply existsb_exists in Hany as (ext & Hin & Hend).
    exists ext. split; [exact Hin|].
    apply endswith_lower_ignoring_case; [now apply supported_suffixes_lowercase | exact Hend].
  - split; [|split; [now right | reflexivity]].
    split; [discriminate|].
    intros (ext & Hin & Hend). exfalso.
    assert (existsb (fun ext => PyStr.endswith (PyStr.lower ct) ext) supported_suffixes = true)
      as Htrue.
    { apply existsb_exists. exists ext. split; [exact Hin|].
      apply endswith_lower_ignoring_case; [now apply supported_suffixes_lowercase | exact Hend]. }
    congruence.
Qed.

Example validate_examples :
  _validate_image_content_type (mkUpload (Some "image/PNG") None []) = Return tt /\
  _validate_image_content_type (mkUpload (Some "IMAGE/Jpeg") None []) = Return tt /\
  _validate_image_content_type (mkUpload (Some "image/gif") None [])
    = RaiseHTTP 400 "Unsupported file type. Upload PNG/JPG/JPEG/BMP/TIFF." /\
  _validate_image_content_type (mkUpload (Some "image/png; charset=x") None [])
    = RaiseHTTP 400 "Unsupported file type. Upload PNG/JPG/JPEG/BMP/TIFF.".
Proof. repeat split; reflexivity. Qed.

(** C9.  An upload whose declared content type is absent or empty is
    validated as the empty string and refused with status 400, by the
    validator and by both endpoints, before anything else happens. *)
Theorem missing_content_type_rejected
    (E : externals) (name : option string) (data : bytes)
    (image_url : option string) (w : world) :
  let absent := mkUpload None name data in
  let empty := mkUpload (Some "") name data in
  let refused : outcome unit :=
    RaiseHTTP 400 "Unsupported file type. Upload PNG/JPG/JPEG/BMP/TIFF." in
  let response : outcome json_response :=
    RaiseHTTP 400 "Unsupported file type. Upload PNG/JPG/JPEG/BMP/TIFF." in
  str_or (content_type absent) "" = "" /\
  str_or (content_type empty) "" = "" /\
  _validate_image_content_type absent = refused /\
  _validate_image_content_type empty = refused /\
  crop_and_perspective_correction E absent w = (response, w) /\
  crop_and_perspective_correction E empty w = (response, w) /\
  split_image_halves E (Some absent) image_url w = (response, w) /\
  split_image_halves E (Some empty) image_url w = (response, w).
Proof. repeat split; reflexivity. Qed.

(* ===================================================================== *)
(** * Source resolution of the split endpoint *)
(* ===================================================================== *)

(** C10.  A split request without a file whose [image_url] is the empty
    string is answered 400 with the missing-source message, and the world
    is untouched: no download is attempted. *)
Theorem empty_url_is_missing_source (E : externals) (w : world) :
  split_image_halves E None (Some "") w
    = (RaiseHTTP 400 "Provide either 'image' file or 'image_url' form field", w).
Proof. reflexivity. Qed.

(** With both a file and a URL the request is served from the file. *)
Lemma both_sources_are_served :
  split_image_halves (Sample.friendly ∅) (Some Sample.png_upload)
                     (Some "http://example.com/a.png") fresh_world
    = (Return (SplitResponse "scan_top_half.png"
                             "https://tmpfiles.org/dl/42/scan_top_half.png"
                             "scan_bottom_half.png"
                             "https://tmpfiles.org/dl/42/scan_bottom_half.png"),
       snd (split_image_halves (Sample.friendly ∅) (Some Sample.png_upload) None fresh_world)).
Proof. vm_compute. reflexivity. Qed.

(** The claim C1 as worded is refuted by that request. *)
Lemma split_requires_exactly_one_source_fails : ~ split_requires_exactly_one_source.
Proof.
  intros Hclaim.
  destruct (Hclaim (Sample.friendly ∅) (Some Sample.png_upload)
                   (Some "http://example.com/a.png") fresh_world) as [detail Hrej].
  - left. split; eexists; reflexivity.
  - rewrite both_sources_are_served in Hrej. discriminate.
Qed.

(** C1, amended.  A split request with neither a file nor a URL is answered
    400 and the world is untouched; a request with a file is served from the
    file, whatever [image_url] holds: the URL is ignored. *)
Theorem split_source_resolution (E : externals) (w : world) :
  split_image_halves E None None w
    = (RaiseHTTP 400 "Provide either 'image' file or 'image_url' form field", w) /\
  (forall upload image_url,
     split_image_halves E (Some upload) image_url w
       = split_image_halves E (Some upload) None w).
Proof. split; reflexivity. Qed.

(* ===================================================================== *)
(** * Candidate selection of the preview endpoint *)
(* ===================================================================== *)

Lemma select_candidate_first_present (result : gmap string (option pil_image)) :
  select_candidate result = first_present result candidate_priority.
Proof.
  unfold select_candidate, candidate_priority. simpl.
  destruct (result !! "perspective_corrected") as [[im1|]|]; simpl; try reflexivity;
    destruct (result !! "cropped_table") as [[im2|]|]; simpl; try reflexivity;
    destruct (result !! "original") as [[im3|]|]; reflexivity.
Qed.

Lemma call_run {A} (ev : event) (answer : list event -> pyresult A) (w : world) :
  call ev answer w
    = (match answer (events w) with Ok a => Return a | Exc e => Raise e end,
       with_event w ev).
Proof. unfold call. destruct (answer (events w)); reflexivity. Qed.

(** The preview handler as a decision tree over the answers it gets. *)
Lemma preview_run (E : externals) (image : upload_file) (w : world) :
  crop_and_perspective_correction E image w
    = match _validate_image_content_type image with
      | Return _ =>
          let name := str_or (filename image) "uploaded.png" in
          let w0 := {| events := events w; last_name := Some name |} in
          if is_empty (body image)
          then (RaiseHTTP 400 "Empty file uploaded", w0)
          else
            let w1 := with_event w0 (EvTempFile name (body image)) in
            match write_input E name (body image) with
            | Exc e => (RaiseHTTP 500 ("Processing failed: " +:+ e), w1)
            | Ok _ =>
                let w2 := with_event w1 (EvCropper (body image) name) in
                match cropper_process_image E (body image) name with
                | Exc e => (RaiseHTTP 500 ("Processing failed: " +:+ e), w2)
                | Ok result =>
                    match select_candidate result with
                    | None =>
                        (RaiseHTTP 500 "Processing failed to produce an output image", w2)
                    | Some out_img =>
                        try_except_reraise_http (trim_and_publish E image out_img)
                          (fun exc => raise_http 500 ("Processing failed: " +:+ exc)) w2
                    end
                end
            end
      | RaiseHTTP st d => (RaiseHTTP st d, w)
      | Raise msg => (RaiseHTTP 500 ("Processing failed: " +:+ msg), w)
      end.
Proof.
  unfold crop_and_perspective_correction, try_except_reraise_http at 1, bind at 1.
  unfold lift_outcome.
  destruct (_validate_image_content_type image) as [[] | st d | msg]; try reflexivity.
  unfold bind at 1, set_last_name.
  destruct (is_empty (body image)); [reflexivity|].
  unfold bind at 1, _process_with_cropper, bind at 1. rewrite call_run.
  cbn [last_name default id events].
  destruct (write_input E (str_or (filename image) "uploaded.png") (body image))
    as [[] | e]; [|reflexivity].
  unfold bind at 1. rewrite call_run.
  cbn [last_name default id events with_event].
  destruct (cropper_process_image E (body image) (str_or (filename image) "uploaded.png"))
    as [result | e]; [|reflexivity].
  cbn [ret fst].
  destruct (select_candidate result); reflexivity.
Qed.

(** C7.  Once the upload is validated and written to the temporary file
    and the cropper has answered, the preview handler goes on with the
    first candidate present in the order perspective_corrected,
    cropped_table, original; when none of the three is present it answers
    500 and the only calls made are the write of the temporary file and
    the call to the cropper: nothing is encoded or published. *)
Theorem preview_candidate_priority
    (E : externals) (image : upload_file) (w : world)
    (result : gmap string (option pil_image)) :
  _validate_image_content_type image = Return tt ->
  is_empty (body image) = false ->
  write_input E (str_or (filename image) "uploaded.png") (body image) = Ok tt ->
  cropper_process_image E (body image) (str_or (filename image) "uploaded.png") = Ok result ->
  let name := str_or (filename image) "uploaded.png" in
  let w1 := {| events := events w ++ [EvTempFile name (body image);
                                      EvCropper (body image) name];
               last_name := Some name |} in
  match first_present result candidate_priority with
  | Some out_img =>
      crop_and_perspective_correction E image w
        = try_except_reraise_http (trim_and_publish E image out_img)
            (fun exc => raise_http 500 ("Processing failed: " +:+ exc)) w1
  | None =>
      crop_and_perspective_correction E image w
        = (RaiseHTTP 500 "Processing failed to produce an output image", w1)
  end.
Proof.
  intros Hvalid Hbody Hwrite Hcropper name w1. subst name w1.
  rewrite <- select_candidate_first_present.
  rewrite preview_run, Hvalid. cbv zeta. rewrite Hbody, Hwrite, Hcropper.
  unfold with_event. cbn [events last_name]. rewrite <- app_assoc. cbn [app].
  destruct (select_candidate result) as [out_img|]; reflexivity.
Qed.

Lemma preview_candidate_priority_witness :
  crop_and_perspective_correction (Sample.friendly ∅) Sample.png_upload fresh_world
    = (RaiseHTTP 500 "Processing failed to produce an output image",
       {| events := [EvTempFile "scan.png" Sample.png_magic;
                     EvCropper Sample.png_magic "scan.png"];
          last_name := Some "scan.png" |}).
Proof.
  exact (preview_candidate_priority (Sample.friendly ∅) Sample.png_upload fresh_world ∅
           eq_refl eq_refl eq_refl eq_refl).
Defined.

(* ===================================================================== *)
(** * URL normalisation of the publisher *)
(* ===================================================================== *)

Lemma startswith_split s p :
  PyStr.startswith s p = true -> s = p +:+ PyStr.drop (String.length p) s.
Proof.
  revert s. induction p as [|a p IH]; intros s H.
  - reflexivity.
  - destruct s as [|b s]; [discriminate|].
    simpl in H. destruct (Ascii.eqb a b) eqn:Hab; [|discriminate].
    apply Ascii.eqb_eq in Hab as ->.
    simpl. f_equal. now apply IH.
Qed.








(* ===================================================================== *)
(** * Publishing *)
(* ===================================================================== *)

(** The encoder saves an RGB or RGBA image as it is and any other image
    after [convert("RGB")]. *)
Lemma pil_to_png_bytes_calls (E : externals) (pil_img : pil_image) (w : world) :
  _pil_to_png_bytes E pil_img w
    = if String.eqb (mode pil_img) "RGB" || String.eqb (mode pil_img) "RGBA"
      then call (EvSave pil_img) (fun _ => image_save_png E pil_img) w
      else bind (call (EvConvert pil_img "RGB") (fun _ => image_convert E pil_img "RGB"))
                (fun save_img => call (EvSave save_img) (fun _ => image_save_png E save_img)) w.
Proof.
  unfold _pil_to_png_bytes.
  destruct (String.eqb (mode pil_img) "RGB" || String.eqb (mode pil_img) "RGBA"); reflexivity.
Qed.

(** One upload is one POST; its outcome is read off the answer to that
    POST alone, and it never raises an [HTTPException]. *)
Lemma upload_to_tmpfiles_run (E : externals) (image_bytes : bytes) (name : string) (w : world) :
  upload_to_tmpfiles E image_bytes name w
    = (match and_then (requests_post E (events w) name image_bytes) read_upload_response with
       | Ok url => Return url
       | Exc e => Raise ("Failed to upload to tmpfiles.org: " +:+ e)
       end,
       {| events := events w ++ [EvPost name image_bytes]; last_name := last_name w |}).
Proof.
  unfold upload_to_tmpfiles, try_except, upload_attempt, bind, call.
  destruct (requests_post E (events w) name image_bytes) as [response | e]; simpl.
  - destruct (read_upload_response response); reflexivity.
  - reflexivity.
Qed.

Example upload_answers :
  read_upload_response (Sample.upload_accepted "a.png")
    = Ok "https://tmpfiles.org/dl/42/a.png" /\
  read_upload_response Sample.upload_refused = Exc "Upload failed: Service Unavailable" /\
  read_upload_response (mkResponse 200 "[]" [] (Ok (JList [])))
    = Exc "'list' object has no attribute 'get'" /\
  read_upload_response (mkResponse 200 "{}" [] (Ok (JDict []))) = Exc "Upload failed: {}".
Proof. repeat split; reflexivity. Qed.

(** C5.  Once the source is resolved and both halves are encoded, the split
    handler publishes the top half and then the bottom half, one POST each.
    If the top upload returns a URL and the bottom upload fails, the
    request is answered 500; the detail is built from the failure text of
    the bottom upload alone, so the response carries no URL; and the log
    shows the two POSTs in that order.  Conversely a successful response
    means that both uploads returned. *)
Theorem second_publish_failure_aborts
    (E : externals) (image : option upload_file) (image_url : option string)
    (w w1 w2 : world) (source : bytes * string)
    (top_bytes bottom_bytes : bytes) (top_name bottom_name : string) :
  resolve_source E image image_url w = (Return source, w1) ->
  bisect_and_encode E source w1
    = (Return (top_bytes, top_name, bottom_bytes, bottom_name), w2) ->
  (forall top_url w3 msg w4,
     upload_to_tmpfiles E top_bytes top_name w2 = (Return top_url, w3) ->
     upload_to_tmpfiles E bottom_bytes bottom_name w3 = (Raise msg, w4) ->
     split_image_halves E image image_url w
       = (RaiseHTTP 500 ("Split failed: " +:+ msg), w4) /\
     events w4 = events w2 ++ [EvPost top_name top_bytes; EvPost bottom_name bottom_bytes] /\
     exists e,
       msg = "Failed to upload to tmpfiles.org: " +:+ e /\
       and_then (requests_post E (events w3) bottom_name bottom_bytes) read_upload_response
         = Exc e) /\
  (forall response w',
     split_image_halves E image image_url w = (Return response, w') ->
     exists top_url bottom_url w3,
       upload_to_tmpfiles E top_bytes top_name w2 = (Return top_url, w3) /\
       upload_to_tmpfiles E bottom_bytes bottom_name w3 = (Return bottom_url, w') /\
       response = SplitResponse top_name top_url bottom_name bottom_url).
Proof.
  intros Hsource Hencode.
  assert (split_image_halves E image image_url w
          = try_except_reraise_http
              (publish_halves E (top_bytes, top_name, bottom_bytes, bottom_name))
              (fun exc => raise_http 500 ("Split failed: " +:+ exc)) w2) as Hrun.
  { unfold split_image_halves, try_except_reraise_http, bind.
    rewrite Hsource, Hencode. reflexivity. }
  split.
  - intros top_url w3 msg w4 Htop Hbottom.
    split; [|split].
    + rewrite Hrun. unfold try_except_reraise_http, publish_halves, bind.
      rewrite Htop, Hbottom. reflexivity.
    + rewrite upload_to_tmpfiles_run in Htop, Hbottom.
      injection Htop as _ <-. injection Hbottom as _ <-. simpl.
      now rewrite <- app_assoc.
    + rewrite upload_to_tmpfiles_run in Hbottom.
      destruct (and_then (requests_post E (events w3) bottom_name bottom_bytes)
                         read_upload_response) as [url | e]; [discriminate|].
      injection Hbottom as <- _. exists e. split; reflexivity.
  - intros response w' Hok.
    rewrite Hrun in Hok. unfold try_except_reraise_http, publish_halves, bind in Hok.
    destruct (upload_to_tmpfiles E top_bytes top_name w2) as [[top_url | st d | msg] w3];
      try discriminate.
    destruct (upload_to_tmpfiles E bottom_bytes bottom_name w3)
      as [[bottom_url | st d | msg] w4] eqn:Hbottom; try discriminate.
    unfold ret in Hok. injection Hok as <- <-.
    exists top_url, bottom_url, w3. repeat split; assumption.
Qed.

Lemma second_publish_failure_aborts_witness :
  let E := Sample.second_upload_refused in
  let w2 := snd (bisect_and_encode E (Sample.png_magic, "scan.png") fresh_world) in
  let data := (Sample.png_magic ++ [Byte.x00])%list in
  let w3 := snd (upload_to_tmpfiles E data "scan_top_half.png" w2) in
  let w4 := snd (upload_to_tmpfiles E data "scan_bottom_half.png" w3) in
  split_image_halves E (Some Sample.png_upload) None fresh_world
    = (RaiseHTTP 500
         "Split failed: Failed to upload to tmpfiles.org: Upload failed: Service Unavailable",
       w4) /\
  events w4 = events w2 ++ [EvPost "scan_top_half.png" data; EvPost "scan_bottom_half.png" data].
Proof.
  intros E w2 data w3 w4.
  pose proof (second_publish_failure_aborts E (Some Sample.png_upload) None
                fresh_world fresh_world w2 (Sample.png_magic, "scan.png")
                data data "scan_top_half.png" "scan_bottom_half.png"
                eq_refl eq_refl) as [Hfail _].
  destruct (Hfail "https://tmpfiles.org/dl/42/scan_top_half.png" w3
                  "Failed to upload to tmpfiles.org: Upload failed: Service Unavailable" w4
                  eq_refl eq_refl) as (Hresponse & Hlog & _).
  split; [exact Hresponse | exact Hlog].
Defined.

(* ===================================================================== *)
(** * Cropping *)
(* ===================================================================== *)

Lemma zrange_length lo hi : length (PIL.zrange lo hi) = Z.to_nat (hi - lo).
Proof. unfold PIL.zrange. now rewrite length_map, length_seq. Qed.

Lemma zrange_lookup lo hi (i : nat) :
  (i < Z.to_nat (hi - lo))%nat -> PIL.zrange lo hi !! i = Some (lo + Z.of_nat i).
Proof.
  intros Hi. unfold PIL.zrange.
  change (map ?f ?l) with (f <$> l).
  rewrite list_lookup_fmap, lookup_seq_lt by exact Hi. reflexivity.
Qed.

Lemma getpixel_inside (im : pil_image) (x y : nat) (r : list pixel) (p : pixel) :
  Z.of_nat x < width im -> Z.of_nat y < height im ->
  rows im !! y = Some r -> r !! x = Some p ->
  PIL.getpixel im (Z.of_nat x) (Z.of_nat y) = p.
Proof.
  intros Hx Hy Hr Hp. unfold PIL.getpixel.
  replace ((0 <=? Z.of_nat x) && (Z.of_nat x <? width im)
           && (0 <=? Z.of_nat y) && (Z.of_nat y <? height im)) with true.
  - rewrite !Nat2Z.id, Hr, Hp. reflexivity.
  - symmetry. rewrite !andb_true_iff.
    repeat split; try (apply Z.leb_le; lia); apply Z.ltb_lt; lia.
Qed.

(** Reading a whole row of a well-formed image gives that row back. *)
Lemma crop_whole_row (im : pil_image) (y : nat) (r : list pixel) :
  well_formed im -> rows im !! y = Some r ->
  map (fun x => PIL.getpixel im x (Z.of_nat y)) (PIL.zrange 0 (width im)) = r.
Proof.
  intros (Hh & Hw & Hrows) Hr.
  assert (Z.of_nat (length r) = width im) as Hlen.
  { rewrite Forall_lookup in Hrows. exact (Hrows y r Hr). }
  assert (Z.of_nat y < height im) as Hy.
  { apply lookup_lt_Some in Hr. lia. }
  apply list_eq. intros i.
  change (map ?f ?l) with (f <$> l). rewrite list_lookup_fmap.
  destruct (decide (i < length r)%nat) as [Hi | Hi].
  - rewrite zrange_lookup by lia. simpl.
    destruct (lookup_lt_is_Some_2 r i Hi) as [p Hp]. rewrite Hp. f_equal.
    apply (getpixel_inside im i y r p); [lia | exact Hy | exact Hr | exact Hp].
  - rewrite (lookup_ge_None_2 r) by lia.
    rewrite (lookup_ge_None_2 (PIL.zrange 0 (width im))); [reflexivity|].
    rewrite zrange_length. lia.
Qed.

(** A full-width band of a well-formed image is a slice of its rows. *)
Lemma crop_band_rows (im : pil_image) (y0 y1 : Z) :
  well_formed im -> 0 <= y0 <= y1 -> y1 <= height im ->
  map (fun y => map (fun x => PIL.getpixel im x y) (PIL.zrange 0 (width im)))
      (PIL.zrange y0 y1)
    = take (Z.to_nat (y1 - y0)) (drop (Z.to_nat y0) (rows im)).
Proof.
  intros Hwf Hy Hh. pose proof Hwf as (Hlen & _ & _).
  apply list_eq. intros i.
  change (map ?f (PIL.zrange y0 y1)) with (f <$> PIL.zrange y0 y1).
  rewrite list_lookup_fmap.
  destruct (decide (i < Z.to_nat (y1 - y0))%nat) as [Hi | Hi].
  - rewrite zrange_lookup by exact Hi. simpl.
    rewrite lookup_take_lt by exact Hi. rewrite lookup_drop.
    destruct (lookup_lt_is_Some_2 (rows im) (Z.to_nat y0 + i)) as [r Hr]; [lia|].
    rewrite Hr. f_equal.
    replace (y0 + Z.of_nat i) with (Z.of_nat (Z.to_nat y0 + i)) by lia.
    now apply crop_whole_row.
  - rewrite lookup_take_ge by lia.
    rewrite (lookup_ge_None_2 (PIL.zrange y0 y1)); [reflexivity|].
    rewrite zrange_length. lia.
Qed.

Lemma sample_image_well_formed : well_formed Sample.rgb_2x3.
Proof.
  split; [reflexivity|]. split; [simpl; lia|].
  repeat constructor.
Qed.

(* ===================================================================== *)
(** * The equal split *)
(* ===================================================================== *)

(** The two crops of the split on a well-formed image. *)
Lemma split_crops (im : pil_image) :
  well_formed im ->
  let mid := height im / 2 in
  let boxes := split_boxes (width im) (height im) in
  boxes = ((0, 0, width im, mid), (0, mid, width im, height im)) /\
  exists top bottom,
    PIL.crop im (fst boxes) = Ok top /\
    PIL.crop im (snd boxes) = Ok bottom /\
    rows top = take (Z.to_nat mid) (rows im) /\
    rows bottom = drop (Z.to_nat mid) (rows im) /\
    (forall i : nat,
       rows top !! i = if decide (Z.of_nat i < mid) then rows im !! i else None) /\
    (forall j : nat, rows bottom !! j = rows im !! (Z.to_nat mid + j)%nat) /\
    height top = mid /\ Z.of_nat (length (rows top)) = mid /\
    height bottom = height im - mid /\
    Z.of_nat (length (rows bottom)) = height im - mid /\
    height top + height bottom = height im /\
    (Z.odd (height im) = true -> height bottom = height top + 1) /\
    (Z.even (height im) = true -> height bottom = height top) /\
    rows top ++ rows bottom = rows im /\
    width top = width im /\ width bottom = width im /\
    mode top = mode im /\ mode bottom = mode im.
Proof.
  intros Hwf mid boxes. pose proof Hwf as (Hlen & Hw & _).
  assert (0 <= mid /\ mid <= height im /\ 2 * mid <= height im < 2 * mid + 2) as Hmid.
  { subst mid. pose proof (Z.div_mod (height im) 2 ltac:(lia)) as Hdm.
    pose proof (Z.mod_pos_bound (height im) 2 ltac:(lia)). lia. }
  split; [reflexivity|].
  assert (rows (mkImage (mode im) (width im - 0) (mid - 0)
                 (map (fun y => map (fun x => PIL.getpixel im x y) (PIL.zrange 0 (width im)))
                      (PIL.zrange 0 mid)))
          = take (Z.to_nat mid) (rows im)) as Htop.
  { simpl. rewrite crop_band_rows by (try assumption; lia).
    rewrite Z.sub_0_r. reflexivity. }
  assert (rows (mkImage (mode im) (width im - 0) (height im - mid)
                 (map (fun y => map (fun x => PIL.getpixel im x y) (PIL.zrange 0 (width im)))
                      (PIL.zrange mid (height im))))
          = drop (Z.to_nat mid) (rows im)) as Hbottom.
  { simpl. rewrite crop_band_rows by (try assumption; lia).
    apply take_ge. rewrite length_drop. lia. }
  eexists _, _.
  split.
  { unfold boxes, split_boxes, PIL.crop. cbn [fst snd]. fold mid.
    replace (width im <? 0) with false by (symmetry; apply Z.ltb_ge; lia).
    replace (mid <? 0) with false by (symmetry; apply Z.ltb_ge; lia).
    reflexivity. }
  split.
  { unfold boxes, split_boxes, PIL.crop. cbn [fst snd]. fold mid.
    replace (width im <? 0) with false by (symmetry; apply Z.ltb_ge; lia).
    replace (height im <? mid) with false by (symmetry; apply Z.ltb_ge; lia).
    reflexivity. }
  rewrite Htop, Hbottom. cbn [height width mode].
  repeat split.
  - intros i. destruct (decide (Z.of_nat i < mid)).
    + apply lookup_take_lt. lia.
    + apply lookup_take_ge. lia.
  - intros j. apply lookup_drop.
  - lia.
  - rewrite length_take. lia.
  - rewrite length_drop. lia.
  - lia.
  - intros Hodd. rewrite Zodd_mod in Hodd. apply Z.eqb_eq in Hodd.
    subst mid. pose proof (Z.div_mod (height im) 2 ltac:(lia)). lia.
  - intros Heven. rewrite Zeven_mod in Heven. apply Z.eqb_eq in Heven.
    subst mid. pose proof (Z.div_mod (height im) 2 ltac:(lia)). lia.
  - apply take_drop.
  - lia.
  - lia.
Qed.


(** An RGB image is saved as it is. *)
Lemma pil_to_png_bytes_rgb (E : externals) (pil_img : pil_image) (w : world) :
  mode pil_img = "RGB" ->
  _pil_to_png_bytes E pil_img w
    = (match image_save_png E pil_img with Ok data => Return data | Exc e => Raise e end,
       with_event w (EvSave pil_img)).
Proof.
  intros Hmode. unfold _pil_to_png_bytes. rewrite Hmode.
  change (negb (String.eqb "RGB" "RGB" || String.eqb "RGB" "RGBA")) with false.
  unfold bind, ret. rewrite call_run. reflexivity.
Qed.

(** The middle stage of the split handler on bytes that Pillow decodes. *)
Lemma bisect_and_encode_run
    (E : externals) (file_bytes : bytes) (original_name : string)
    (opened im top bottom : pil_image) (w : world) :
  image_open E file_bytes = Ok opened ->
  image_convert E opened "RGB" = Ok im ->
  PIL.crop im (fst (split_boxes (width im) (height im))) = Ok top ->
  PIL.crop im (snd (split_boxes (width im) (height im))) = Ok bottom ->
  mode top = "RGB" -> mode bottom = "RGB" ->
  bisect_and_encode E (file_bytes, original_name) w
    = (match image_save_png E top with
       | Exc e => Raise e
       | Ok top_bytes =>
           match image_save_png E bottom with
           | Exc e => Raise e
           | Ok bottom_bytes =>
               Return (top_bytes,
                       PyPath.splitext_root (PyPath.basename original_name)
                         +:+ "_top_half.png",
                       bottom_bytes,
                       PyPath.splitext_root (PyPath.basename original_name)
                         +:+ "_bottom_half.png")
           end
       end,
       {| events := events w ++ [EvOpen file_bytes; EvConvert opened "RGB"; EvSave top]
                      ++ match image_save_png E top with
                         | Ok _ => [EvSave bottom]
                         | Exc _ => []
                         end;
          last_name := last_name w |}).
Proof.
  intros Hopen Hconvert Htop Hbottom Hmode_top Hmode_bottom.
  unfold bisect_and_encode.
  unfold bind at 1. rewrite call_run, Hopen.
  unfold bind at 1. rewrite call_run, Hconvert. cbv zeta.
  unfold bind at 1. rewrite Htop. cbn [lift ret].
  unfold bind at 1. rewrite Hbottom. cbn [lift ret].
  unfold bind at 1. rewrite (pil_to_png_bytes_rgb E top _ Hmode_top).
  unfold with_event. cbn [events last_name]. rewrite <- !app_assoc. cbn [app].
  destruct (image_save_png E top) as [top_bytes | e]; [|reflexivity].
  unfold bind at 1. rewrite (pil_to_png_bytes_rgb E bottom _ Hmode_bottom).
  unfold with_event. cbn [events last_name]. rewrite <- !app_assoc. cbn [app].
  destruct (image_save_png E bottom) as [bottom_bytes | e]; reflexivity.
Qed.

(** C2.  For a decoded RGB image of height H and width W the split cuts at
    [mid = H // 2]: the top crop holds the rows [0, mid), the bottom crop
    the rows [mid, H); both crops succeed and keep the width and the mode;
    the top has [H // 2] rows, the two row counts add up to H, the bottom
    has the extra row when H is odd; no row is in both halves; and the top
    rows followed by the bottom rows are the rows of the image.  These two
    crops are what the split handler does with the image it decoded: it
    hands the top crop and then the bottom crop to the PNG encoder, and it
    publishes the two encodings under the names of the halves. *)
Theorem split_halves_partition
    (E : externals) (file_bytes : bytes) (original_name : string)
    (opened im : pil_image) (w : world) :
  image_open E file_bytes = Ok opened ->
  image_convert E opened "RGB" = Ok im ->
  mode im = "RGB" ->
  well_formed im ->
  let mid := height im / 2 in
  let boxes := split_boxes (width im) (height im) in
  let name_base := PyPath.splitext_root (PyPath.basename original_name) in
  boxes = ((0, 0, width im, mid), (0, mid, width im, height im)) /\
  exists top bottom,
    PIL.crop im (fst boxes) = Ok top /\
    PIL.crop im (snd boxes) = Ok bottom /\
    rows top = take (Z.to_nat mid) (rows im) /\
    rows bottom = drop (Z.to_nat mid) (rows im) /\
    (forall i : nat,
       rows top !! i = if decide (Z.of_nat i < mid) then rows im !! i else None) /\
    (forall j : nat, rows bottom !! j = rows im !! (Z.to_nat mid + j)%nat) /\
    height top = mid /\ Z.of_nat (length (rows top)) = mid /\
    height bottom = height im - mid /\
    Z.of_nat (length (rows bottom)) = height im - mid /\
    height top + height bottom = height im /\
    (Z.odd (height im) = true -> height bottom = height top + 1) /\
    (Z.even (height im) = true -> height bottom = height top) /\
    rows top ++ rows bottom = rows im /\
    width top = width im /\ width bottom = width im /\
    mode top = mode im /\ mode bottom = mode im /\
    bisect_and_encode E (file_bytes, original_name) w
      = (match image_save_png E top with
         | Exc e => Raise e
         | Ok top_bytes =>
             match image_save_png E bottom with
             | Exc e => Raise e
             | Ok bottom_bytes =>
                 Return (top_bytes, name_base +:+ "_top_half.png",
                         bottom_bytes, name_base +:+ "_bottom_half.png")
             end
         end,
         {| events := events w ++ [EvOpen file_bytes; EvConvert opened "RGB"; EvSave top]
                        ++ match image_save_png E top with
                           | Ok _ => [EvSave bottom]
                           | Exc _ => []
                           end;
            last_name := last_name w |}) /\
    (forall (image : option upload_file) (image_url : option string) (w0 : world)
            (top_bytes bottom_bytes : bytes),
       resolve_source E image image_url w0 = (Return (file_bytes, original_name), w) ->
       image_save_png E top = Ok top_bytes ->
       image_save_png E bottom = Ok bottom_bytes ->
       split_image_halves E image image_url w0
         = try_except_reraise_http
             (publish_halves E (top_bytes, name_base +:+ "_top_half.png",
                                bottom_bytes, name_base +:+ "_bottom_half.png"))
             (fun exc => raise_http 500 ("Split failed: " +:+ exc))
             {| events := events w ++ [EvOpen file_bytes; EvConvert opened "RGB";
                                       EvSave top; EvSave bottom];
                last_name := last_name w |}).
Proof.
  intros Hopen Hconvert Hmode Hwf mid boxes name_base.
  destruct (split_crops im Hwf)
    as (Hboxes & top & bottom & Htop & Hbottom & Hrt & Hrb & Hit & Hib & Hht & Hlt
        & Hhb & Hlb & Hsum & Hodd & Heven & Hcat & Hwt & Hwb & Hmt & Hmb).
  split; [exact Hboxes|]. exists top, bottom.
  assert (bisect_and_encode E (file_bytes, original_name) w
          = (match image_save_png E top with
             | Exc e => Raise e
             | Ok top_bytes =>
                 match image_save_png E bottom with
                 | Exc e => Raise e
                 | Ok bottom_bytes =>
                     Return (top_bytes, name_base +:+ "_top_half.png",
                             bottom_bytes, name_base +:+ "_bottom_half.png")
                 end
             end,
             {| events := events w ++ [EvOpen file_bytes; EvConvert opened "RGB"; EvSave top]
                            ++ match image_save_png E top with
                               | Ok _ => [EvSave bottom]
                               | Exc _ => []
                               end;
                last_name := last_name w |})) as Hrun.
  { apply (bisect_and_encode_run E file_bytes original_name opened im top bottom w);
      try assumption; congruence. }
  repeat (split; [assumption|]).
  intros image image_url w0 top_bytes bottom_bytes Hsource Hsave_top Hsave_bottom.
  unfold split_image_halves, try_except_reraise_http at 1, bind at 1.
  rewrite Hsource. unfold bind at 1. rewrite Hrun, Hsave_top, Hsave_bottom.
  reflexivity.
Qed.

Lemma split_halves_partition_witness :
  exists top bottom,
    PIL.crop Sample.rgb_2x3 (0, 0, 2, 1) = Ok top /\
    PIL.crop Sample.rgb_2x3 (0, 1, 2, 3) = Ok bottom /\
    height top = 1 /\ height bottom = 2 /\
    rows top ++ rows bottom = rows Sample.rgb_2x3 /\
    events (snd (bisect_and_encode (Sample.friendly ∅) (Sample.png_magic, "scan.png")
                   fresh_world))
      = [EvOpen Sample.png_magic; EvConvert Sample.rgb_2x3 "RGB";
         EvSave top; EvSave bottom].
Proof.
  destruct (split_halves_partition (Sample.friendly ∅) Sample.png_magic "scan.png"
              Sample.rgb_2x3 Sample.rgb_2x3 fresh_world
              eq_refl eq_refl eq_refl sample_image_well_formed)
    as (_ & top & bottom & Htop & Hbottom & _ & _ & _ & _ & Hht & _ & Hhb & _ & _ & _ & _
        & Hcat & _ & _ & _ & _ & Hrun & _).
  exists top, bottom. repeat (split; [assumption|]).
  rewrite Hrun. reflexivity.
Defined.

(* ===================================================================== *)
(** * Float arithmetic of the preview trim *)
(* ===================================================================== *)

Example float_checks :
  PyFloat.to_int (PyFloat.mul PyFloat.lit_0_29 (PyFloat.of_int 100)) = 28 /\
  PyFloat.to_int (PyFloat.mul PyFloat.lit_0_27 (PyFloat.of_int 1000)) = 270 /\
  PyFloat.to_int (PyFloat.mul PyFloat.lit_0_12 (PyFloat.of_int 800)) = 96 /\
  PyFloat.of_int (2 ^ 53 + 1) = PyFloat.mkFloat false (2 ^ 52) 1 /\
  PyFloat.of_int (2 ^ 53 + 3) = PyFloat.mkFloat false (2 ^ 52 + 2) 1.
Proof. repeat split; reflexivity. Qed.

(** The rounding of [PyFloat.mul] is that of the Standard Library's
    [SFmul] at every pixel count from 2 to 4000 and at the largest one. *)
Example mul_agrees_with_SFmul :
  forallb (PyFloat.agrees_with_SFmul PyFloat.lit_0_27) (PIL.zrange 2 4001) = true /\
  forallb (PyFloat.agrees_with_SFmul PyFloat.lit_0_12) (PIL.zrange 2 4001) = true /\
  forallb (PyFloat.agrees_with_SFmul PyFloat.lit_0_29) (PIL.zrange 2 4001) = true /\
  PyFloat.agrees_with_SFmul PyFloat.lit_0_27 (2 ^ 31 - 1) = true /\
  PyFloat.agrees_with_SFmul PyFloat.lit_0_12 (2 ^ 31 - 1) = true.
Proof. repeat split; vm_compute; reflexivity. Qed.






(* ===================================================================== *)
(** * The preview trim *)
(* ===================================================================== *)



(* ===================================================================== *)
(** * Further properties of the uploader *)
(* ===================================================================== *)

(** X1.  [upload_to_tmpfiles] returns a URL exactly when the hosting service
    answers 200 with a JSON object whose [status] is "success" and whose
    [data] object holds a non-empty string [url]; the URL returned is the
    normalisation of that string.  In every case exactly one POST is
    logged and the stored file name is kept. *)
Theorem upload_returns_iff
    (E : externals) (image_bytes : bytes) (name : string) (w : world) (url : string) :
  (fst (upload_to_tmpfiles E image_bytes name w) = Return url <->
   exists response items inner u,
     requests_post E (events w) name image_bytes = Ok response /\
     status_code response = 200 /\
     json_body response = Ok (JDict items) /\
     PyObj.items_get items "status" = Some (JStr "success") /\
     PyObj.items_get items "data" = Some (JDict inner) /\
     PyObj.items_get inner "url" = Some (JStr u) /\
     u <> "" /\
     url = normalize_file_url u) /\
  snd (upload_to_tmpfiles E image_bytes name w) = with_event w (EvPost name image_bytes).
Proof.
  rewrite upload_to_tmpfiles_run. cbn [fst snd]. split; [|reflexivity].
  split.
  - destruct (requests_post E (events w) name image_bytes) as [response | e];
      [|discriminate].
    cbn [and_then]. unfold read_upload_response.
    destruct (status_code response =? 200) eqn:Hst; [|discriminate].
    apply Z.eqb_eq in Hst.
    destruct (json_body response) as [data | e] eqn:Hjson; [|discriminate].
    cbn [and_then].
    destruct data as [ | b | n | nz | s | l | items]; try discriminate.
    cbn [PyObj.get and_then].
    destruct (PyObj.items_get items "status") as [status|] eqn:Hstatus;
      cbn [default id]; [|discriminate].
    destruct status as [ | b | n | nz | s | l | kv]; try discriminate.
    cbn [PyObj.eq_str].
    destruct (String.eqb s "success") eqn:Hs; [|discriminate].
    apply String.eqb_eq in Hs. subst s.
    destruct (PyObj.items_get items "data") as [inner|] eqn:Hdata; cbn [default id].
    + destruct inner as [ | b | n | nz | s | l | inner]; try discriminate.
      cbn [PyObj.get and_then].
      destruct (PyObj.items_get inner "url") as [file_url|] eqn:Hurl; cbn [default id].
      * destruct file_url as [ | b | n | nz | u | l | kv]; cbn [PyObj.truthy].
        -- discriminate.
        -- destruct b; discriminate.
        -- destruct (negb (n =? 0)); discriminate.
        -- destruct nz; discriminate.
        -- destruct (String.eqb u "") eqn:Hu; cbn [negb]; [discriminate|].
           apply String.eqb_neq in Hu.
           intros [= <-]. exists response, items, inner, u. repeat split; first [assumption | reflexivity].
        -- destruct l; discriminate.
        -- destruct kv; discriminate.
      * discriminate.
    + discriminate.
  - intros (response & items & inner & u & -> & Hst & Hjson & Hstatus & Hdata & Hurl & Hu & ->).
    cbn [and_then]. unfold read_upload_response.
    rewrite Hst, Hjson. cbn [Z.eqb Pos.eqb and_then PyObj.get].
    rewrite Hstatus. cbn [default id PyObj.eq_str].
    rewrite Hdata. cbn [default id and_then PyObj.get].
    rewrite Hurl. cbn [default id PyObj.truthy].
    apply String.eqb_neq in Hu. rewrite Hu. reflexivity.
Qed.

(** X2.  When the hosting service answers with a status other than 200, the
    JSON body is not consulted: the uploader raises a plain exception whose
    text is the fixed prefix followed by the body text of the answer. *)
Theorem upload_rejected_reply
    (E : externals) (image_bytes : bytes) (name : string) (w : world)
    (response : http_response) :
  requests_post E (events w) name image_bytes = Ok response ->
  status_code response <> 200 ->
  upload_to_tmpfiles E image_bytes name w
    = (Raise ("Failed to upload to tmpfiles.org: Upload failed: " +:+ text response),
       with_event w (EvPost name image_bytes)).
Proof.
  intros Hpost Hst. rewrite upload_to_tmpfiles_run, Hpost. cbn [and_then].
  unfold read_upload_response.
  apply Z.eqb_neq in Hst. rewrite Hst. reflexivity.
Qed.

Lemma upload_rejected_reply_witness :
  upload_to_tmpfiles Sample.second_upload_refused Sample.png_magic "b.png"
                     (with_event fresh_world (EvPost "a.png" Sample.png_magic))
    = (Raise "Failed to upload to tmpfiles.org: Upload failed: Service Unavailable",
       with_event (with_event fresh_world (EvPost "a.png" Sample.png_magic))
                  (EvPost "b.png" Sample.png_magic)).
Proof.
  apply (upload_rejected_reply Sample.second_upload_refused Sample.png_magic "b.png"
           (with_event fresh_world (EvPost "a.png" Sample.png_magic))
           Sample.upload_refused eq_refl).
  discriminate.
Defined.

(* ===================================================================== *)
(** * Which computations can raise an HTTP error *)
(* ===================================================================== *)

Lemma never_http_ret {A} (a : A) : never_http (ret a).
Proof. intros w st d w'. discriminate. Qed.

Lemma never_http_raise_exception {A} (msg : string) : never_http (@raise_exception A msg).
Proof. intros w st d w'. discriminate. Qed.

Lemma never_http_lift {A} (r : pyresult A) : never_http (lift r).
Proof. destruct r; [apply never_http_ret | apply never_http_raise_exception]. Qed.

Lemma never_http_call {A} (ev : event) (answer : list event -> pyresult A) :
  never_http (call ev answer).
Proof.
  intros w st d w'. rewrite call_run.
  destruct (answer (events w)); discriminate.
Qed.

Lemma never_http_bind {A B} (m : M A) (k : A -> M B) :
  never_http m -> (forall a, never_http (k a)) -> never_http (bind m k).
Proof.
  intros Hm Hk w st d w'. unfold bind.
  destruct (m w) as [[a | st0 d0 | msg] w0] eqn:Hrun.
  - apply Hk.
  - exfalso. exact (Hm w st0 d0 w0 Hrun).
  - discriminate.
Qed.

Lemma never_http_try_except {A} (m : M A) (handler : string -> M A) :
  (forall e, never_http (handler e)) -> never_http (try_except m handler).
Proof.
  intros Hh w st d w'. unfold try_except.
  destruct (m w) as [[a | st0 d0 | msg] w0]; [discriminate | apply Hh | apply Hh].
Qed.

Lemma never_http_pil_to_png_bytes (E : externals) (pil_img : pil_image) :
  never_http (_pil_to_png_bytes E pil_img).
Proof.
  unfold _pil_to_png_bytes. apply never_http_bind.
  - destruct (negb _); [apply never_http_call | apply never_http_ret].
  - intros save_img. apply never_http_call.
Qed.

Lemma never_http_upload (E : externals) (image_bytes : bytes) (name : string) :
  never_http (upload_to_tmpfiles E image_bytes name).
Proof.
  unfold upload_to_tmpfiles. apply never_http_try_except.
  intros e. apply never_http_raise_exception.
Qed.

Lemma never_http_trim_and_publish (E : externals) (image : upload_file) (out_img : pil_image) :
  never_http (trim_and_publish E image out_img).
Proof.
  unfold trim_and_publish.
  apply never_http_bind; [apply never_http_lift | intros cropped].
  apply never_http_bind; [apply never_http_pil_to_png_bytes | intros png_bytes].
  apply never_http_bind; [apply never_http_upload | intros url].
  apply never_http_ret.
Qed.

Lemma never_http_bisect_and_encode (E : externals) (source : bytes * string) :
  never_http (bisect_and_encode E source).
Proof.
  destruct source as [file_bytes original_name]. unfold bisect_and_encode.
  apply never_http_bind; [apply never_http_call | intros opened].
  apply never_http_bind; [apply never_http_call | intros pil_img].
  apply never_http_bind; [apply never_http_lift | intros top_half].
  apply never_http_bind; [apply never_http_lift | intros bottom_half].
  apply never_http_bind; [apply never_http_pil_to_png_bytes | intros top_bytes].
  apply never_http_bind; [apply never_http_pil_to_png_bytes | intros bottom_bytes].
  apply never_http_ret.
Qed.

Lemma never_http_publish_halves (E : externals) (encoded : bytes * string * bytes * string) :
  never_http (publish_halves E encoded).
Proof.
  destruct encoded as [[[top_bytes top_name] bottom_bytes] bottom_name].
  unfold publish_halves.
  apply never_http_bind; [apply never_http_upload | intros top_url].
  apply never_http_bind; [apply never_http_upload | intros bottom_url].
  apply never_http_ret.
Qed.

Lemma validate_outcomes (upload : upload_file) :
  _validate_image_content_type upload = Return tt \/
  _validate_image_content_type upload
    = RaiseHTTP 400 "Unsupported file type. Upload PNG/JPG/JPEG/BMP/TIFF.".
Proof.
  unfold _validate_image_content_type.
  destruct (negb _); [now right | now left].
Qed.

(* ===================================================================== *)
(** * Further properties of the preview endpoint *)
(* ===================================================================== *)

(** X3.  The preview handler answers with a response or with an
    [HTTPException] of status 400 or 500, never with another exception; and
    a 400 means that no collaborator was called. *)
Theorem preview_response_statuses (E : externals) (image : upload_file) (w : world) :
  match crop_and_perspective_correction E image w with
  | (Return _, _) => True
  | (RaiseHTTP st _, w') => (st = 400 /\ events w' = events w) \/ st = 500
  | (Raise _, _) => False
  end.
Proof.
  rewrite preview_run.
  destruct (validate_outcomes image) as [-> | ->]; [|left; split; reflexivity].
  cbv zeta.
  destruct (is_empty (body image)); [left; split; reflexivity|].
  destruct (write_input E (str_or (filename image) "uploaded.png") (body image))
    as [[] | e]; [|now right].
  destruct (cropper_process_image E (body image) (str_or (filename image) "uploaded.png"))
    as [result | e]; [|now right].
  destruct (select_candidate result) as [out_img|]; [|now right].
  unfold try_except_reraise_http.
  match goal with
  | |- context [trim_and_publish E image out_img ?w1] =>
      destruct (trim_and_publish E image out_img w1) as [[resp | st d | msg] w2] eqn:Hrun
  end.
  - exact I.
  - exfalso. exact (never_http_trim_and_publish E image out_img _ _ _ _ Hrun).
  - now right.
Qed.

(** X4.  When the cropper raises on a validated, non-empty upload that was
    written to the temporary file, the preview handler answers 500 with the
    cropper's text after the fixed prefix; the write of the temporary file
    and the call to the cropper are the only calls made. *)
Theorem preview_cropper_failure
    (E : externals) (image : upload_file) (w : world) (e : string) :
  _validate_image_content_type image = Return tt ->
  is_empty (body image) = false ->
  write_input E (str_or (filename image) "uploaded.png") (body image) = Ok tt ->
  cropper_process_image E (body image) (str_or (filename image) "uploaded.png") = Exc e ->
  crop_and_perspective_correction E image w
    = (RaiseHTTP 500 ("Processing failed: " +:+ e),
       {| events := events w
                      ++ [EvTempFile (str_or (filename image) "uploaded.png") (body image);
                          EvCropper (body image) (str_or (filename image) "uploaded.png")];
          last_name := Some (str_or (filename image) "uploaded.png") |}).
Proof.
  intros Hvalid Hbody Hwrite Hcropper.
  rewrite preview_run, Hvalid. cbv zeta. rewrite Hbody, Hwrite, Hcropper.
  unfold with_event. cbn [events last_name]. rewrite <- app_assoc. reflexivity.
Qed.

Lemma preview_cropper_failure_witness :
  crop_and_perspective_correction (Cases.with_cropper (Exc "Could not read image"))
                                  Sample.png_upload fresh_world
    = (RaiseHTTP 500 "Processing failed: Could not read image",
       {| events := [EvTempFile "scan.png" Sample.png_magic;
                     EvCropper Sample.png_magic "scan.png"];
          last_name := Some "scan.png" |}).
Proof.
  exact (preview_cropper_failure (Cases.with_cropper (Exc "Could not read image"))
           Sample.png_upload fresh_world "Could not read image"
           eq_refl eq_refl eq_refl eq_refl).
Defined.

(** X5.  An upload of a supported type with an empty body is refused with
    400 "Empty file uploaded" before any collaborator is called, but the
    stored file name has already been overwritten with this upload's
    name. *)
Theorem preview_empty_body (E : externals) (image : upload_file) (w : world) :
  _validate_image_content_type image = Return tt ->
  body image = [] ->
  crop_and_perspective_correction E image w
    = (RaiseHTTP 400 "Empty file uploaded",
       {| events := events w;
          last_name := Some (str_or (filename image) "uploaded.png") |}).
Proof.
  intros Hvalid Hbody.
  rewrite preview_run, Hvalid. cbv zeta. rewrite Hbody. reflexivity.
Qed.

Lemma preview_empty_body_witness :
  crop_and_perspective_correction (Sample.friendly ∅) Cases.empty_upload fresh_world
    = (RaiseHTTP 400 "Empty file uploaded",
       {| events := []; last_name := Some "a.png" |}).
Proof.
  exact (preview_empty_body (Sample.friendly ∅) Cases.empty_upload fresh_world
           eq_refl eq_refl).
Defined.

(** X6.  The preview handler does not depend on the file name an earlier
    request left behind: from two worlds that differ only in the stored
    name it gives the same answer and logs the same calls. *)
Theorem preview_ignores_stale_name
    (E : externals) (image : upload_file) (w : world) (stale : option string) :
  let w0 := {| events := events w; last_name := stale |} in
  fst (crop_and_perspective_correction E image w0)
    = fst (crop_and_perspective_correction E image w) /\
  events (snd (crop_and_perspective_correction E image w0))
    = events (snd (crop_and_perspective_correction E image w)).
Proof.
  intros w0. rewrite !preview_run.
  destruct (_validate_image_content_type image) as [[] | st d | msg];
    split; reflexivity.
Qed.

(* ===================================================================== *)
(** * File names *)
(* ===================================================================== *)

Lemma char_free_app c a b :
  char_free c (a +:+ b) = char_free c a && char_free c b.
Proof.
  induction a as [|x a IH]; [reflexivity|].
  simpl. rewrite IH. now rewrite andb_assoc.
Qed.

Lemma rfind_char_free c p :
  (PyPath.rfind c p = None -> char_free c p = true) /\
  (forall i, PyPath.rfind c p = Some i -> char_free c (PyStr.drop (S i) p) = true).
Proof.
  induction p as [|a p [IHnone IHsome]].
  - split; [reflexivity | discriminate].
  - cbn [PyPath.rfind].
    destruct (PyPath.rfind c p) as [j|] eqn:Hlast.
    + split; [discriminate|]. intros i [= <-]. cbn [PyStr.drop]. now apply IHsome.
    + destruct (Ascii.eqb a c) eqn:Hac.
      * split; [discriminate|]. intros i [= <-]. cbn [PyStr.drop]. now apply IHnone.
      * split; [|discriminate]. intros _. cbn [char_free]. rewrite Hac. now apply IHnone.
Qed.

Lemma basename_slash_free p : char_free "/" (PyPath.basename p) = true.
Proof.
  unfold PyPath.basename.
  destruct (PyPath.rfind "/" p) as [i|] eqn:Hlast.
  - now apply (proj2 (rfind_char_free "/" p)).
  - now apply (proj1 (rfind_char_free "/" p)).
Qed.

Lemma substring_char_free c s n :
  char_free c s = true -> char_free c (String.substring 0 n s) = true.
Proof.
  revert n. induction s as [|a s IH]; intros n Hs.
  - destruct n; reflexivity.
  - destruct n; [reflexivity|].
    cbn [char_free] in Hs. apply andb_true_iff in Hs as [Ha Hs].
    cbn [String.substring char_free]. rewrite Ha. now apply IH.
Qed.

Lemma splitext_root_char_free c p :
  char_free c p = true -> char_free c (PyPath.splitext_root p) = true.
Proof.
  intros Hp. unfold PyPath.splitext_root.
  destruct (PyPath.rfind "." p) as [dotIndex|]; [|exact Hp].
  destruct (existsb _ _); [|exact Hp].
  now apply substring_char_free.
Qed.

Lemma name_base_slash_free (client_name : string) :
  char_free "/" (PyPath.splitext_root (PyPath.basename client_name)) = true.
Proof. apply splitext_root_char_free, basename_slash_free. Qed.

(** X7.  Whatever file name the client sends, the names under which the
    images are published contain no path separator: the preview name and
    the two names of the halves are built from the base name without its
    directories. *)
Theorem published_names_have_no_separator (client_name : string) :
  let name_base := PyPath.splitext_root (PyPath.basename client_name) in
  char_free "/" (name_base +:+ "_preview.png") = true /\
  char_free "/" (name_base +:+ "_top_half.png") = true /\
  char_free "/" (name_base +:+ "_bottom_half.png") = true.
Proof.
  intros name_base.
  assert (char_free "/" name_base = true) as Hbase by apply name_base_slash_free.
  rewrite !char_free_app, Hbase. repeat split; reflexivity.
Qed.

(* ===================================================================== *)
(** * The stored file name *)
(* ===================================================================== *)

Lemma keeps_last_name_ret {A} (a : A) : keeps_last_name (ret a).
Proof. intros w o w' [= _ <-]. reflexivity. Qed.

Lemma keeps_last_name_lift {A} (r : pyresult A) : keeps_last_name (lift r).
Proof. destruct r; intros w o w' [= _ <-]; reflexivity. Qed.

Lemma keeps_last_name_call {A} (ev : event) (answer : list event -> pyresult A) :
  keeps_last_name (call ev answer).
Proof. intros w o w'. rewrite call_run. intros [= _ <-]. reflexivity. Qed.

Lemma keeps_last_name_bind {A B} (m : M A) (k : A -> M B) :
  keeps_last_name m -> (forall a, keeps_last_name (k a)) -> keeps_last_name (bind m k).
Proof.
  intros Hm Hk w o w'. unfold bind.
  destruct (m w) as [[a | st d | msg] w0] eqn:Hrun; pose proof (Hm _ _ _ Hrun) as Hw0.
  - intros Hk_run. rewrite (Hk a _ _ _ Hk_run). exact Hw0.
  - intros [= _ <-]. exact Hw0.
  - intros [= _ <-]. exact Hw0.
Qed.

Lemma keeps_last_name_pil_to_png_bytes (E : externals) (pil_img : pil_image) :
  keeps_last_name (_pil_to_png_bytes E pil_img).
Proof.
  unfold _pil_to_png_bytes. apply keeps_last_name_bind.
  - destruct (negb _); [apply keeps_last_name_call | apply keeps_last_name_ret].
  - intros save_img. apply keeps_last_name_call.
Qed.

Lemma keeps_last_name_upload (E : externals) (image_bytes : bytes) (name : string) :
  keeps_last_name (upload_to_tmpfiles E image_bytes name).
Proof. intros w o w'. rewrite upload_to_tmpfiles_run. intros [= _ <-]. reflexivity. Qed.




(* ===================================================================== *)
(** * Crop windows *)
(* ===================================================================== *)







(* ===================================================================== *)
(** * Further properties of the split endpoint *)
(* ===================================================================== *)

(** Source resolution as a decision tree over the answers it gets. *)
Lemma resolve_source_run
    (E : externals) (image : option upload_file) (image_url : option string) (w : world) :
  resolve_source E image image_url w
    = match image with
      | Some upload =>
          match _validate_image_content_type upload with
          | Return _ =>
              if is_empty (body upload)
              then (RaiseHTTP 400 "Empty file uploaded", w)
              else (Return (body upload, str_or (filename upload) "uploaded.png"), w)
          | RaiseHTTP st d => (RaiseHTTP st d, w)
          | Raise msg => (Raise msg, w)
          end
      | None =>
          if negb (String.eqb (str_or image_url "") "")
          then
            let url := download_url (str_or image_url "") in
            let w1 := with_event w (EvGet url) in
            match requests_get E (events w) url with
            | Exc e => (RaiseHTTP 400 ("Failed to download image from URL: " +:+ e), w1)
            | Ok resp =>
                if negb (status_code resp =? 200)
                then (RaiseHTTP 400 ("Failed to download image: HTTP "
                                     +:+ PyStr.of_Z (status_code resp)), w1)
                else (Return (content resp, downloaded_name url), w1)
            end
          else (RaiseHTTP 400 "Provide either 'image' file or 'image_url' form field", w)
      end.
Proof.
  unfold resolve_source. destruct image as [upload|].
  - unfold bind, lift_outcome.
    destruct (_validate_image_content_type upload) as [[] | st d | msg]; try reflexivity.
    destruct (is_empty (body upload)); reflexivity.
  - destruct (negb (String.eqb (str_or image_url "") "")); [|reflexivity].
    unfold try_except_reraise_http, bind. rewrite call_run.
    fold (download_url (str_or image_url "")).
    destruct (requests_get E (events w) (download_url (str_or image_url "")))
      as [resp | e]; [|reflexivity].
    destruct (negb (status_code resp =? 200)); reflexivity.
Qed.

(** The split handler as a decision tree over its three stages. *)
Lemma split_run
    (E : externals) (image : option upload_file) (image_url : option string) (w : world) :
  split_image_halves E image image_url w
    = match resolve_source E image image_url w with
      | (Return source, w1) =>
          match bisect_and_encode E source w1 with
          | (Return encoded, w2) =>
              try_except_reraise_http (publish_halves E encoded)
                (fun exc => raise_http 500 ("Split failed: " +:+ exc)) w2
          | (RaiseHTTP st d, w2) => (RaiseHTTP st d, w2)
          | (Raise msg, w2) => (RaiseHTTP 500 ("Split failed: " +:+ msg), w2)
          end
      | (RaiseHTTP st d, w1) => (RaiseHTTP st d, w1)
      | (Raise msg, w1) => (RaiseHTTP 500 ("Split failed: " +:+ msg), w1)
      end.
Proof.
  unfold split_image_halves, try_except_reraise_http, bind.
  destruct (resolve_source E image image_url w) as [[source | st d | msg] w1];
    try reflexivity.
  destruct (bisect_and_encode E source w1) as [[encoded | st d | msg] w2]; reflexivity.
Qed.

(** X10.  The split handler answers with a response or with an
    [HTTPException] of status 400 or 500, never with another exception; and
    a 400 means that nothing was decoded, encoded or published: the log is
    unchanged or grew by the single download. *)
Theorem split_response_statuses
    (E : externals) (image : option upload_file) (image_url : option string) (w : world) :
  match split_image_halves E image image_url w with
  | (Return _, _) => True
  | (RaiseHTTP st _, w') =>
      (st = 400 /\
       (events w' = events w \/ exists url, events w' = events w ++ [EvGet url]))
      \/ st = 500
  | (Raise _, _) => False
  end.
Proof.
  rewrite split_run, resolve_source_run.
  assert (forall source w1,
            match
              match bisect_and_encode E source w1 with
              | (Return encoded, w2) =>
                  try_except_reraise_http (publish_halves E encoded)
                    (fun exc => raise_http 500 ("Split failed: " +:+ exc)) w2
              | (RaiseHTTP st d, w2) => (RaiseHTTP st d, w2)
              | (Raise msg, w2) => (RaiseHTTP 500 ("Split failed: " +:+ msg), w2)
              end
            with
            | (Return _, _) => True
            | (RaiseHTTP st _, w') =>
                (st = 400 /\
                 (events w' = events w \/ exists url, events w' = events w ++ [EvGet url]))
                \/ st = 500
            | (Raise _, _) => False
            end) as Hrest.
  { intros source w1.
    destruct (bisect_and_encode E source w1) as [[encoded | st d | msg] w2] eqn:Henc.
    - unfold try_except_reraise_http.
      destruct (publish_halves E encoded w2) as [[resp | st d | msg] w3] eqn:Hpub.
      + exact I.
      + exfalso. exact (never_http_publish_halves E encoded _ _ _ _ Hpub).
      + now right.
    - exfalso. exact (never_http_bisect_and_encode E source _ _ _ _ Henc).
    - now right. }
  destruct image as [upload|].
  - destruct (validate_outcomes upload) as [-> | ->].
    + destruct (is_empty (body upload)); [left; split; [reflexivity | now left]|].
      apply Hrest.
    + left. split; [reflexivity | now left].
  - destruct (negb (String.eqb (str_or image_url "") "")).
    + cbv zeta.
      destruct (requests_get E (events w) (download_url (str_or image_url "")))
        as [resp | e].
      * destruct (negb (status_code resp =? 200)).
        -- left. split; [reflexivity|]. right. eexists. reflexivity.
        -- apply Hrest.
      * left. split; [reflexivity|]. right. eexists. reflexivity.
    + left. split; [reflexivity | now left].
Qed.

Lemma str_or_some (s dflt : string) : s <> "" -> str_or (Some s) dflt = s.
Proof.
  intros Hs. unfold str_or. apply String.eqb_neq in Hs. now rewrite Hs.
Qed.

Lemma str_or_nonempty (x : option string) (dflt : string) :
  dflt <> "" -> str_or x dflt <> "".
Proof.
  intros Hd. unfold str_or. destruct x as [s|]; [|exact Hd].
  destruct (String.eqb s "") eqn:Hs; [exact Hd | now apply String.eqb_neq].
Qed.

(** X11.  A failed download is the client's error: when the GET of a
    non-empty [image_url] raises, or is answered with a status other than
    200, the split handler answers 400 with the exception text or the
    status in the detail, and the GET is the only call made. *)
Theorem download_failure_is_client_error
    (E : externals) (image_url : string) (w : world) (reply : pyresult http_response) :
  image_url <> "" ->
  requests_get E (events w) (download_url image_url) = reply ->
  match reply with
  | Ok resp => status_code resp <> 200
  | Exc _ => True
  end ->
  split_image_halves E None (Some image_url) w
    = (RaiseHTTP 400
         match reply with
         | Ok resp => "Failed to download image: HTTP " +:+ PyStr.of_Z (status_code resp)
         | Exc e => "Failed to download image from URL: " +:+ e
         end,
       with_event w (EvGet (download_url image_url))).
Proof.
  intros Hurl Hget Hbad.
  rewrite split_run, resolve_source_run, (str_or_some _ _ Hurl).
  apply String.eqb_neq in Hurl. rewrite Hurl. cbn [negb]. cbv zeta.
  rewrite Hget. destruct reply as [resp | e]; [|reflexivity].
  apply Z.eqb_neq in Hbad. rewrite Hbad. reflexivity.
Qed.

Lemma download_failure_is_client_error_witness :
  split_image_halves (Cases.with_download (Ok Cases.not_found)) None
                     (Some "http://example.com/a.png") fresh_world
    = (RaiseHTTP 400 "Failed to download image: HTTP 404",
       with_event fresh_world (EvGet "https://example.com/a.png")).
Proof.
  apply (download_failure_is_client_error (Cases.with_download (Ok Cases.not_found))
           "http://example.com/a.png" fresh_world (Ok Cases.not_found)).
  - discriminate.
  - reflexivity.
  - discriminate.
Defined.

(** X12.  A download answered 200 is taken as the source whatever its
    content, an empty body included (the empty-file check is made for
    uploaded files only); the file name derived from the URL is never empty
    and contains no path separator. *)
Theorem download_accepted
    (E : externals) (image_url : string) (w : world) (resp : http_response) :
  image_url <> "" ->
  requests_get E (events w) (download_url image_url) = Ok resp ->
  status_code resp = 200 ->
  resolve_source E None (Some image_url) w
    = (Return (content resp, downloaded_name (download_url image_url)),
       with_event w (EvGet (download_url image_url))) /\
  downloaded_name (download_url image_url) <> "" /\
  char_free "/" (downloaded_name (download_url image_url)) = true.
Proof.
  intros Hurl Hget Hst. split; [|split].
  - rewrite resolve_source_run, (str_or_some _ _ Hurl).
    apply String.eqb_neq in Hurl. rewrite Hurl. cbn [negb]. cbv zeta.
    rewrite Hget, Hst. reflexivity.
  - unfold downloaded_name. apply str_or_nonempty. discriminate.
  - unfold downloaded_name.
    set (base := PyPath.basename _).
    assert (char_free "/" base = true) as Hbase by apply basename_slash_free.
    unfold str_or. destruct (String.eqb base ""); [reflexivity | exact Hbase].
Qed.

Lemma download_accepted_witness :
  resolve_source (Cases.with_download
                    (Ok (mkResponse 200 "" [] (Exc "not JSON")))) None
                 (Some "https://example.com/scans/?page=2") fresh_world
    = (Return ([], "downloaded.png"),
       with_event fresh_world (EvGet "https://example.com/scans/?page=2")).
Proof.
  exact (proj1 (download_accepted
                  (Cases.with_download (Ok (mkResponse 200 "" [] (Exc "not JSON"))))
                  "https://example.com/scans/?page=2" fresh_world
                  (mkResponse 200 "" [] (Exc "not JSON"))
                  ltac:(discriminate) eq_refl eq_refl)).
Defined.

(** X13.  When the upload of the top half fails, the split handler answers
    500 with the failure text and the bottom half is never posted: the
    top POST is the last call made. *)
Theorem first_publish_failure_stops
    (E : externals) (image : option upload_file) (image_url : option string)
    (w w1 w2 w3 : world) (source : bytes * string)
    (top_bytes bottom_bytes : bytes) (top_name bottom_name msg : string) :
  resolve_source E image image_url w = (Return source, w1) ->
  bisect_and_encode E source w1
    = (Return (top_bytes, top_name, bottom_bytes, bottom_name), w2) ->
  upload_to_tmpfiles E top_bytes top_name w2 = (Raise msg, w3) ->
  split_image_halves E image image_url w
    = (RaiseHTTP 500 ("Split failed: " +:+ msg), w3) /\
  events w3 = events w2 ++ [EvPost top_name top_bytes] /\
  posts (events w3) = posts (events w2) ++ [(top_name, top_bytes)].
Proof.
  intros Hsource Hencode Htop.
  split; [|split].
  - rewrite split_run, Hsource, Hencode.
    unfold try_except_reraise_http, publish_halves, bind. rewrite Htop. reflexivity.
  - rewrite upload_to_tmpfiles_run in Htop. injection Htop as _ <-. reflexivity.
  - rewrite upload_to_tmpfiles_run in Htop. injection Htop as _ <-.
    cbn [with_event events].
    induction (events w2) as [|ev evs IH]; [reflexivity|].
    destruct ev; cbn [app posts]; rewrite IH; reflexivity.
Qed.

Lemma first_publish_failure_stops_witness :
  let E := Cases.uploads_refused in
  let w2 := snd (bisect_and_encode E (Sample.png_magic, "scan.png") fresh_world) in
  let data := (Sample.png_magic ++ [Byte.x00])%list in
  split_image_halves E (Some Sample.png_upload) None fresh_world
    = (RaiseHTTP 500
         "Split failed: Failed to upload to tmpfiles.org: Upload failed: Service Unavailable",
       with_event w2 (EvPost "scan_top_half.png" data)).
Proof.
  intros E w2 data.
  exact (proj1 (first_publish_failure_stops E (Some Sample.png_upload) None
                  fresh_world fresh_world w2 _ (Sample.png_magic, "scan.png")
                  data data "scan_top_half.png" "scan_bottom_half.png" _
                  eq_refl eq_refl eq_refl)).
Defined.

(** X14.  When Pillow cannot open the resolved bytes, the split handler
    answers 500 with Pillow's text after the fixed prefix, and the attempt
    to open is the last call made: nothing is encoded or published. *)
Theorem undecodable_source
    (E : externals) (image : option upload_file) (image_url : option string)
    (w w1 : world) (file_bytes : bytes) (original_name e : string) :
  resolve_source E image image_url w = (Return (file_bytes, original_name), w1) ->
  image_open E file_bytes = Exc e ->
  split_image_halves E image image_url w
    = (RaiseHTTP 500 ("Split failed: " +:+ e), with_event w1 (EvOpen file_bytes)).
Proof.
  intros Hsource Hopen.
  rewrite split_run, Hsource.
  unfold bisect_and_encode, bind at 1. rewrite call_run, Hopen. reflexivity.
Qed.

Lemma undecodable_source_witness :
  split_image_halves Cases.undecodable (Some Sample.png_upload) None fresh_world
    = (RaiseHTTP 500 "Split failed: cannot identify image file",
       with_event fresh_world (EvOpen Sample.png_magic)).
Proof.
  exact (undecodable_source Cases.undecodable (Some Sample.png_upload) None
           fresh_world fresh_world Sample.png_magic "scan.png"
           "cannot identify image file" eq_refl eq_refl).
Defined.

Lemma line_well_formed : well_formed Cases.line_3x1.
Proof.
  split; [reflexivity|]. split; [simpl; lia|].
  repeat constructor.
Qed.

(** The shapes of the two halves of a well-formed image. *)
Lemma split_halves_shape (im : pil_image) :
  well_formed im ->
  exists top bottom,
    PIL.crop im (fst (split_boxes (width im) (height im))) = Ok top /\
    PIL.crop im (snd (split_boxes (width im) (height im))) = Ok bottom /\
    well_formed top /\ well_formed bottom /\
    height top <= height bottom <= height top + 1 /\
    (height top = 0 <-> height im <= 1) /\
    (height bottom = 0 <-> height im = 0) /\
    (height im = 1 -> rows top = [] /\ rows bottom = rows im) /\
    mode top = mode im /\ mode bottom = mode im.
Proof.
  intros Hwf. pose proof Hwf as (Hlen & Hw & Hrows).
  set (mid := height im / 2).
  assert (0 <= mid /\ 2 * mid <= height im < 2 * mid + 2) as Hmid.
  { subst mid. pose proof (Z.div_mod (height im) 2 ltac:(lia)).
    pose proof (Z.mod_pos_bound (height im) 2 ltac:(lia)). lia. }
  assert (0 <= height im) as Hh by lia.
  unfold split_boxes. fold mid. cbn [fst snd]. unfold PIL.crop.
  replace (width im <? 0) with false by (symmetry; apply Z.ltb_ge; lia).
  replace (mid <? 0) with false by (symmetry; apply Z.ltb_ge; lia).
  replace (height im <? mid) with false by (symmetry; apply Z.ltb_ge; lia).
  rewrite !crop_band_rows by (try assumption; lia).
  rewrite Z.sub_0_r. change (Z.to_nat 0) with 0%nat. rewrite drop_0.
  rewrite (take_ge (drop (Z.to_nat mid) (rows im))) by (rewrite length_drop; lia).
  eexists _, _. split; [reflexivity|]. split; [reflexivity|].
  split.
  { split; [|split]; cbn [rows width height].
    - rewrite length_take. lia.
    - lia.
    - now apply Forall_take. }
  split.
  { split; [|split]; cbn [rows width height].
    - rewrite length_drop. lia.
    - lia.
    - now apply Forall_drop. }
  cbn [rows width height mode].
  split; [lia|]. split; [lia|]. split; [lia|].
  split; [|split; reflexivity].
  intros H1. replace mid with 0 by lia. split; reflexivity.
Qed.

(** X15.  Both halves of a well-formed image are well formed, and the top
    half is never the taller one.  The top half is empty exactly when the
    image has at most one row, the bottom half only when the image has no
    row; so an image of height 1 is split into an empty top half and a
    bottom half that is the whole image.  These halves are the ones the
    split handler works on: after decoding and converting to RGB it hands
    the top half and then, if that was encoded, the bottom half to the PNG
    encoder; so for an image of height 1 the encoder is given an image
    without rows first. *)
Theorem split_halves_well_formed
    (E : externals) (file_bytes : bytes) (original_name : string)
    (opened im : pil_image) (w : world) :
  image_open E file_bytes = Ok opened ->
  image_convert E opened "RGB" = Ok im ->
  mode im = "RGB" ->
  well_formed im ->
  let name_base := PyPath.splitext_root (PyPath.basename original_name) in
  exists top bottom,
    PIL.crop im (fst (split_boxes (width im) (height im))) = Ok top /\
    PIL.crop im (snd (split_boxes (width im) (height im))) = Ok bottom /\
    well_formed top /\ well_formed bottom /\
    height top <= height bottom <= height top + 1 /\
    (height top = 0 <-> height im <= 1) /\
    (height bottom = 0 <-> height im = 0) /\
    (height im = 1 -> rows top = [] /\ rows bottom = rows im) /\
    bisect_and_encode E (file_bytes, original_name) w
      = (match image_save_png E top with
         | Exc e => Raise e
         | Ok top_bytes =>
             match image_save_png E bottom with
             | Exc e => Raise e
             | Ok bottom_bytes =>
                 Return (top_bytes, name_base +:+ "_top_half.png",
                         bottom_bytes, name_base +:+ "_bottom_half.png")
             end
         end,
         {| events := events w ++ [EvOpen file_bytes; EvConvert opened "RGB"; EvSave top]
                        ++ match image_save_png E top with
                           | Ok _ => [EvSave bottom]
                           | Exc _ => []
                           end;
            last_name := last_name w |}) /\
    (forall (image : option upload_file) (image_url : option string) (w0 : world) (e : string),
       resolve_source E image image_url w0 = (Return (file_bytes, original_name), w) ->
       image_save_png E top = Exc e ->
       split_image_halves E image image_url w0
         = (RaiseHTTP 500 ("Split failed: " +:+ e),
            {| events := events w ++ [EvOpen file_bytes; EvConvert opened "RGB"; EvSave top];
               last_name := last_name w |})).
Proof.
  intros Hopen Hconvert Hmode Hwf name_base.
  destruct (split_halves_shape im Hwf)
    as (top & bottom & Htop & Hbottom & Hwft & Hwfb & Hle & Hzt & Hzb & Hone & Hmt & Hmb).
  exists top, bottom.
  assert (bisect_and_encode E (file_bytes, original_name) w
          = (match image_save_png E top with
             | Exc e => Raise e
             | Ok top_bytes =>
                 match image_save_png E bottom with
                 | Exc e => Raise e
                 | Ok bottom_bytes =>
                     Return (top_bytes, name_base +:+ "_top_half.png",
                             bottom_bytes, name_base +:+ "_bottom_half.png")
                 end
             end,
             {| events := events w ++ [EvOpen file_bytes; EvConvert opened "RGB"; EvSave top]
                            ++ match image_save_png E top with
                               | Ok _ => [EvSave bottom]
                               | Exc _ => []
                               end;
                last_name := last_name w |})) as Hrun.
  { apply (bisect_and_encode_run E file_bytes original_name opened im top bottom w);
      try assumption; congruence. }
  repeat (split; [assumption|]).
  intros image image_url w0 e Hsource Hsave.
  unfold split_image_halves, try_except_reraise_http at 1, bind at 1.
  rewrite Hsource. unfold bind at 1. rewrite Hrun, Hsave. reflexivity.
Qed.

Lemma split_halves_well_formed_witness :
  let E := Cases.decodes_to Cases.line_3x1 in
  exists top bottom,
    PIL.crop Cases.line_3x1 (0, 0, 3, 0) = Ok top /\
    PIL.crop Cases.line_3x1 (0, 0, 3, 1) = Ok bottom /\
    rows top = [] /\ rows bottom = rows Cases.line_3x1 /\
    events (snd (bisect_and_encode E (Sample.png_magic, "line.png") fresh_world))
      = [EvOpen Sample.png_magic; EvConvert Cases.line_3x1 "RGB"; EvSave top; EvSave bottom].
Proof.
  intros E.
  destruct (split_halves_well_formed E Sample.png_magic "line.png"
              Cases.line_3x1 Cases.line_3x1 fresh_world
              eq_refl eq_refl eq_refl line_well_formed)
    as (top & bottom & Htop & Hbottom & _ & _ & _ & _ & _ & Hone & Hrun & _).
  exists top, bottom. destruct (Hone eq_refl) as [Hempty Hall].
  repeat (split; [assumption|]).
  rewrite Hrun. reflexivity.
Defined.

(* ===================================================================== *)
(** * Replacement and occurrences *)
(* ===================================================================== *)

Lemma mismatch_sym a b : mismatch a b = mismatch b a.
Proof.
  revert b. induction a as [|x a IH]; intros [|y b]; try reflexivity.
  cbn [mismatch]. rewrite (Ascii.eqb_sym x y), IH. reflexivity.
Qed.

(** A pattern that differs from [prefix] at a common position does not
    begin a string that begins with [prefix]. *)
Lemma mismatch_startswith pat prefix rest :
  mismatch pat prefix = true -> PyStr.startswith (prefix +:+ rest) pat = false.
Proof.
  revert prefix. induction pat as [|a pat IH]; intros [|b prefix] H; try discriminate.
  cbn [mismatch] in H. cbn [String.append PyStr.startswith].
  destruct (Ascii.eqb a b); [now apply IH | reflexivity].
Qed.

Lemma contains_app_r pat a b :
  PyStr.contains pat b = true -> PyStr.contains pat (a +:+ b) = true.
Proof.
  intros Hb. induction a as [|x a IH]; [exact Hb|].
  cbn [String.append PyStr.contains]. rewrite IH. apply orb_true_r.
Qed.

Lemma contains_after_tails old pat rest :
  tails_mismatch old pat = true ->
  PyStr.contains pat (old +:+ rest) = PyStr.contains pat rest.
Proof.
  intros Htails. induction old as [|x old IH]; [reflexivity|].
  cbn [tails_mismatch] in Htails. apply andb_true_iff in Htails as [Hhere Hlater].
  change (String x old +:+ rest) with (String x (old +:+ rest)).
  cbn [PyStr.contains].
  change (String x (old +:+ rest)) with (String x old +:+ rest).
  rewrite mismatch_startswith by (rewrite mismatch_sym; exact Hhere).
  now apply IH.
Qed.

Lemma replace_from_skip old new k s :
  PyStr.replace_from k old new s = PyStr.replace_from 0 old new (PyStr.drop k s).
Proof.
  revert s. induction k as [|k IH]; intros s; [reflexivity|].
  destruct s as [|c s]; [reflexivity|].
  cbn [PyStr.replace_from PyStr.drop]. apply IH.
Qed.

Lemma replace_at_match old new s :
  old <> "" -> PyStr.startswith s old = true ->
  PyStr.replace s old new
    = new +:+ PyStr.replace (PyStr.drop (String.length old) s) old new.
Proof.
  intros Hold Hstart. unfold PyStr.replace.
  destruct old as [|o old]; [contradiction|].
  destruct s as [|c s]; [discriminate|].
  cbn [PyStr.replace_from]. rewrite Hstart.
  rewrite replace_from_skip.
  replace (String.length (String o old) - 1)%nat with (String.length old)
    by (cbn [String.length]; lia).
  reflexivity.
Qed.

Lemma drop_length_le k s : (String.length (PyStr.drop k s) <= String.length s)%nat.
Proof.
  revert s. induction k as [|k IH]; intros s; [reflexivity|].
  destruct s as [|c s]; [reflexivity|].
  cbn [PyStr.drop String.length]. specialize (IH s). lia.
Qed.

(** Replacement leaves a leading [pat] alone when the first character of
    [old] does not occur in [pat]. *)
Lemma replace_keeps_prefix o old new pat s :
  char_free o pat = true ->
  PyStr.startswith s pat = true ->
  PyStr.startswith (PyStr.replace s (String o old) new) pat = true.
Proof.
  unfold PyStr.replace. revert s.
  induction pat as [|a pat IH]; intros s Hfree Hstart; [reflexivity|].
  destruct s as [|c s]; [discriminate|].
  cbn [char_free] in Hfree. apply andb_true_iff in Hfree as [Ha Hfree].
  cbn [PyStr.startswith] in Hstart.
  destruct (Ascii.eqb a c) eqn:Hac; [|discriminate].
  apply Ascii.eqb_eq in Hac. subst c.
  cbn [PyStr.replace_from PyStr.startswith].
  rewrite Ascii.eqb_sym. apply negb_true_iff in Ha. rewrite Ha.
  cbn [PyStr.startswith]. rewrite Ascii.eqb_refl. now apply IH.
Qed.

(** Replacing [old] keeps every occurrence of [pat] when [pat] cannot begin
    inside [old] and [old] cannot begin inside [pat]. *)
Lemma replace_preserves_contains o old new pat s :
  char_free o pat = true ->
  tails_mismatch (String o old) pat = true ->
  PyStr.contains pat s = true ->
  PyStr.contains pat (PyStr.replace s (String o old) new) = true.
Proof.
  intros Hfree Htails.
  remember (String.length s) as n eqn:Hn.
  assert (String.length s <= n)%nat as Hle by lia. clear Hn.
  revert s Hle. induction n as [|n IH]; intros s Hle Hin.
  - destruct s; [|simpl in Hle; lia].
    destruct pat as [|a pat]; [reflexivity | discriminate].
  - destruct (PyStr.startswith s (String o old)) eqn:Hstart.
    + rewrite replace_at_match by (discriminate || exact Hstart).
      apply contains_app_r. apply IH.
      * pose proof (startswith_split s _ Hstart) as Hs.
        assert (String.length s
                = (String.length (String o old)
                   + String.length (PyStr.drop (String.length (String o old)) s))%nat) as Hl.
        { rewrite Hs at 1. clear. generalize (PyStr.drop (String.length (String o old)) s).
          intros t. induction (String o old) as [|x y IHy]; [reflexivity|].
          cbn [String.append String.length]. now rewrite IHy. }
        cbn [String.length] in Hl |- *. cbn [String.length] in Hle. lia.
      * rewrite (startswith_split s _ Hstart) in Hin.
        now rewrite contains_after_tails in Hin.
    + destruct s as [|c s].
      * destruct pat as [|a pat]; [reflexivity | discriminate].
      * unfold PyStr.replace. cbn [PyStr.replace_from]. rewrite Hstart.
        cbn [PyStr.contains] in Hin. apply orb_true_iff in Hin as [Hhere | Hlater].
        -- pose proof (replace_keeps_prefix o old new pat (String c s) Hfree Hhere) as Hkeep.
           unfold PyStr.replace in Hkeep. cbn [PyStr.replace_from] in Hkeep.
           rewrite Hstart in Hkeep.
           cbn [PyStr.contains]. rewrite Hkeep. reflexivity.
        -- cbn [PyStr.contains]. fold (PyStr.replace s (String o old) new).
           rewrite IH; [apply orb_true_r | cbn [String.length] in Hle; lia | exact Hlater].
Qed.

(** If [p] does not begin [s], it does not begin the result of a
    replacement whose new text differs from every tail of [p]. *)
Lemma replace_not_prefix old new p s :
  tails_mismatch p new = true ->
  PyStr.startswith s p = false ->
  PyStr.startswith (PyStr.replace s old new) p = false.
Proof.
  unfold PyStr.replace. revert s.
  induction p as [|a p IH]; intros s Htails Hs; [discriminate|].
  cbn [tails_mismatch] in Htails. apply andb_true_iff in Htails as [Hhere Hlater].
  destruct s as [|c s]; [reflexivity|].
  cbn [PyStr.replace_from].
  destruct (PyStr.startswith (String c s) old).
  - now apply mismatch_startswith.
  - cbn [PyStr.startswith] in Hs |- *.
    destruct (Ascii.eqb a c); [now apply IH | reflexivity].
Qed.

Lemma replace_inserts_dl s :
  PyStr.contains "tmpfiles.org/" s = true ->
  PyStr.contains "/dl/" (PyStr.replace s "tmpfiles.org/" "tmpfiles.org/dl/") = true.
Proof.
  unfold PyStr.replace. induction s as [|c s IH]; intros Hin; [discriminate|].
  cbn [PyStr.replace_from].
  destruct (PyStr.startswith (String c s) "tmpfiles.org/") eqn:Hstart.
  - reflexivity.
  - cbn [PyStr.contains] in Hin. rewrite Hstart in Hin. cbn [orb] in Hin.
    cbn [PyStr.contains]. rewrite (IH Hin). apply orb_true_r.
Qed.

Lemma startswith_shorter s p q :
  PyStr.startswith s (p +:+ q) = true -> PyStr.startswith s p = true.
Proof.
  revert s. induction p as [|a p IH]; intros s H; [reflexivity|].
  destruct s as [|c s]; [discriminate|].
  cbn [String.append PyStr.startswith] in H |- *.
  destruct (Ascii.eqb a c); [now apply IH | discriminate].
Qed.

Lemma contains_shorter s p q :
  PyStr.contains (p +:+ q) s = true -> PyStr.contains p s = true.
Proof.
  induction s as [|c s IH]; cbn [PyStr.contains]; intros H.
  - rewrite orb_false_r in H |- *. now apply startswith_shorter in H.
  - apply orb_true_iff in H as [H | H].
    + apply startswith_shorter in H. now rewrite H.
    + rewrite (IH H). apply orb_true_r.
Qed.

(** The scheme step of both normalisations: what it returns does not begin
    with [http://] and still mentions the host if the input did. *)
Lemma upgrade_scheme_result (u : string) :
  let u1 := if PyStr.startswith u "http://"
            then PyStr.replace u "http://" "https://" else u in
  PyStr.startswith u1 "http://" = false /\
  (PyStr.contains "tmpfiles.org/" u = true -> PyStr.contains "tmpfiles.org/" u1 = true).
Proof.
  destruct (PyStr.startswith u "http://") eqn:Hstart; cbv zeta.
  - split.
    + rewrite replace_at_match by (discriminate || exact Hstart). reflexivity.
    + intros Hin. now apply (replace_preserves_contains "h" "ttp://").
  - split; [exact Hstart | trivial].
Qed.

(* ===================================================================== *)
(** * Further properties of the URL normalisations *)
(* ===================================================================== *)

Lemma normalize_never_plain_http (file_url : string) :
  PyStr.startswith (normalize_file_url file_url) "http://" = false.
Proof.
  unfold normalize_file_url.
  destruct (upgrade_scheme_result file_url) as [Hscheme _]. cbv zeta in Hscheme |- *.
  set (u1 := if PyStr.startswith file_url "http://"
             then PyStr.replace file_url "http://" "https://" else file_url) in *.
  destruct (negb (PyStr.contains "/dl/" u1)); [|exact Hscheme].
  now apply replace_not_prefix.
Qed.

Lemma read_upload_response_normalized (response : http_response) (url : string) :
  read_upload_response response = Ok url -> exists u, url = normalize_file_url u.
Proof.
  intros H. unfold read_upload_response in H.
  destruct (status_code response =? 200); [|discriminate].
  destruct (json_body response) as [data|]; [|discriminate]. cbn [and_then] in H.
  destruct (PyObj.get data "status" JNone) as [status|]; [|discriminate].
  cbn [and_then] in H.
  destruct (PyObj.eq_str status "success"); [|discriminate].
  destruct (PyObj.get data "data" (JDict [])) as [inner|]; [|discriminate].
  cbn [and_then] in H.
  destruct (PyObj.get inner "url" (JStr "")) as [file_url|]; [|discriminate].
  cbn [and_then] in H.
  destruct (PyObj.truthy file_url); [|discriminate].
  destruct file_url; try discriminate.
  injection H as <-. eexists. reflexivity.
Qed.

Lemma upload_returns_https (E : externals) (image_bytes : bytes) (name : string)
    (w w' : world) (url : string) :
  upload_to_tmpfiles E image_bytes name w = (Return url, w') ->
  PyStr.startswith url "http://" = false.
Proof.
  rewrite upload_to_tmpfiles_run.
  destruct (and_then (requests_post E (events w) name image_bytes) read_upload_response)
    as [url0 | e] eqn:Hread; [|discriminate].
  intros [= <- _].
  destruct (requests_post E (events w) name image_bytes) as [response | e];
    [|discriminate].
  cbn [and_then] in Hread.
  destruct (read_upload_response_normalized _ _ Hread) as [u ->].
  apply normalize_never_plain_http.
Qed.

(** X16.  No URL returned by the uploader begins with [http://]: the
    normalised URL never has the plain-HTTP scheme, whatever the hosting
    service sent. *)
Theorem normalize_file_url_not_http
    (E : externals) (image_bytes : bytes) (name : string) (w : world) (file_url : string) :
  PyStr.startswith (normalize_file_url file_url) "http://" = false /\
  match fst (upload_to_tmpfiles E image_bytes name w) with
  | Return url => PyStr.startswith url "http://" = false
  | _ => True
  end.
Proof.
  split; [apply normalize_never_plain_http|].
  destruct (upload_to_tmpfiles E image_bytes name w) as [[url | st d | msg] w'] eqn:Hrun;
    cbn [fst]; try exact I.
  exact (upload_returns_https _ _ _ _ _ _ Hrun).
Qed.

(** X17.  Whenever the URL sent by the hosting service mentions
    [tmpfiles.org/], the URL returned by the uploader contains the
    direct-download segment [/dl/]. *)
Theorem normalize_file_url_direct (file_url : string) :
  PyStr.contains "tmpfiles.org/" file_url = true ->
  PyStr.contains "/dl/" (normalize_file_url file_url) = true.
Proof.
  intros Hhost. unfold normalize_file_url.
  destruct (upgrade_scheme_result file_url) as [_ Hkeep]. cbv zeta in Hkeep |- *.
  specialize (Hkeep Hhost).
  set (u1 := if PyStr.startswith file_url "http://"
             then PyStr.replace file_url "http://" "https://" else file_url) in *.
  destruct (PyStr.contains "/dl/" u1) eqn:Hdl; cbn [negb]; [exact Hdl|].
  now apply replace_inserts_dl.
Qed.

Lemma normalize_file_url_direct_witness :
  PyStr.contains "/dl/" (normalize_file_url "http://tmpfiles.org/9/a.png?from=http://x")
    = true.
Proof.
  exact (normalize_file_url_direct "http://tmpfiles.org/9/a.png?from=http://x" eq_refl).
Defined.

Lemma download_url_result (image_url : string) :
  PyStr.startswith (download_url image_url) "http://" = false /\
  (PyStr.contains "tmpfiles.org/" image_url = true ->
   PyStr.contains "/dl/" (download_url image_url) = true).
Proof.
  unfold download_url.
  destruct (upgrade_scheme_result image_url) as [Hscheme Hkeep].
  cbv zeta in Hscheme, Hkeep |- *.
  set (u1 := if PyStr.startswith image_url "http://"
             then PyStr.replace image_url "http://" "https://" else image_url) in *.
  split.
  - destruct (PyStr.contains "tmpfiles.org" u1 && negb (PyStr.contains "/dl/" u1));
      [|exact Hscheme].
    now apply replace_not_prefix.
  - intros Hhost. specialize (Hkeep Hhost).
    rewrite (contains_shorter u1 "tmpfiles.org" "/" Hkeep). cbn [andb].
    destruct (PyStr.contains "/dl/" u1) eqn:Hdl; cbn [negb]; [exact Hdl|].
    now apply replace_inserts_dl.
Qed.

(** X18.  For a non-empty [image_url] the split handler makes exactly one
    GET during source resolution; the URL it fetches never begins with
    [http://], and it contains [/dl/] whenever the form value mentions
    [tmpfiles.org/]. *)
Theorem fetched_url_is_normalized
    (E : externals) (image_url : string) (w : world) :
  image_url <> "" ->
  exists url,
    events (snd (resolve_source E None (Some image_url) w)) = events w ++ [EvGet url] /\
    PyStr.startswith url "http://" = false /\
    (PyStr.contains "tmpfiles.org/" image_url = true -> PyStr.contains "/dl/" url = true).
Proof.
  intros Hurl. exists (download_url image_url).
  split; [|apply download_url_result].
  rewrite resolve_source_run, (str_or_some _ _ Hurl).
  apply String.eqb_neq in Hurl. rewrite Hurl. cbn [negb]. cbv zeta.
  destruct (requests_get E (events w) (download_url image_url)) as [resp | e];
    [destruct (negb (status_code resp =? 200))|]; reflexivity.
Qed.

Lemma fetched_url_is_normalized_witness :
  exists url,
    events (snd (resolve_source (Sample.friendly ∅) None
                   (Some "http://tmpfiles.org/7/scan.png") fresh_world))
      = [EvGet url] /\
    PyStr.startswith url "http://" = false.
Proof.
  destruct (fetched_url_is_normalized (Sample.friendly ∅)
              "http://tmpfiles.org/7/scan.png" fresh_world ltac:(discriminate))
    as (url & Hlog & Hscheme & _).
  exists url. split; assumption.
Defined.

(* ===================================================================== *)
(** * What is published *)
(* ===================================================================== *)

Lemma posts_app (a b : list event) : posts (a ++ b) = posts a ++ posts b.
Proof.
  induction a as [|ev a IH]; [reflexivity|].
  destruct ev; cbn [app posts]; rewrite IH; reflexivity.
Qed.

Lemma adds_no_post_ret {A} (a : A) : adds_no_post (ret a).
Proof. intros w o w' [= _ <-]. reflexivity. Qed.

Lemma adds_no_post_lift {A} (r : pyresult A) : adds_no_post (lift r).
Proof. destruct r; intros w o w' [= _ <-]; reflexivity. Qed.

Lemma adds_no_post_call {A} (ev : event) (answer : list event -> pyresult A) :
  not_a_post ev = true -> adds_no_post (call ev answer).
Proof.
  intros Hev w o w'. rewrite call_run. intros [= _ <-].
  cbn [with_event events]. rewrite posts_app.
  destruct ev; try discriminate; apply app_nil_r.
Qed.

Lemma adds_no_post_bind {A B} (m : M A) (k : A -> M B) :
  adds_no_post m -> (forall a, adds_no_post (k a)) -> adds_no_post (bind m k).
Proof.
  intros Hm Hk w o w'. unfold bind.
  destruct (m w) as [[a | st d | msg] w0] eqn:Hrun; pose proof (Hm _ _ _ Hrun) as Hw0.
  - intros Hk_run. rewrite (Hk a _ _ _ Hk_run). exact Hw0.
  - intros [= _ <-]. exact Hw0.
  - intros [= _ <-]. exact Hw0.
Qed.

Lemma adds_no_post_pil_to_png_bytes (E : externals) (pil_img : pil_image) :
  adds_no_post (_pil_to_png_bytes E pil_img).
Proof.
  unfold _pil_to_png_bytes. apply adds_no_post_bind.
  - destruct (negb _); [now apply adds_no_post_call | apply adds_no_post_ret].
  - intros save_img. now apply adds_no_post_call.
Qed.

Lemma adds_no_post_bisect_and_encode (E : externals) (source : bytes * string) :
  adds_no_post (bisect_and_encode E source).
Proof.
  destruct source as [file_bytes original_name]. unfold bisect_and_encode.
  apply adds_no_post_bind; [now apply adds_no_post_call | intros opened].
  apply adds_no_post_bind; [now apply adds_no_post_call | intros pil_img].
  apply adds_no_post_bind; [apply adds_no_post_lift | intros top_half].
  apply adds_no_post_bind; [apply adds_no_post_lift | intros bottom_half].
  apply adds_no_post_bind; [apply adds_no_post_pil_to_png_bytes | intros top_bytes].
  apply adds_no_post_bind; [apply adds_no_post_pil_to_png_bytes | intros bottom_bytes].
  apply adds_no_post_ret.
Qed.

Lemma adds_no_post_resolve_source
    (E : externals) (image : option upload_file) (image_url : option string) :
  adds_no_post (resolve_source E image image_url).
Proof.
  intros w o w'. rewrite resolve_source_run.
  destruct image as [upload|].
  - destruct (_validate_image_content_type upload) as [[] | st d | msg];
      [destruct (is_empty (body upload))| |]; intros [= _ <-]; reflexivity.
  - destruct (negb _); [|intros [= _ <-]; reflexivity].
    cbv zeta.
    destruct (requests_get E (events w) _) as [resp | e];
      [destruct (negb (status_code resp =? 200))|];
      intros [= _ <-]; cbn [with_event events]; rewrite posts_app; apply app_nil_r.
Qed.

Lemma upload_posts (E : externals) (image_bytes : bytes) (name : string) (w : world) :
  posts (events (snd (upload_to_tmpfiles E image_bytes name w)))
    = posts (events w) ++ [(name, image_bytes)].
Proof. rewrite upload_to_tmpfiles_run. cbn [snd with_event events]. apply posts_app. Qed.

(** X19.  Whatever happens, the split handler uploads at most twice; when
    it returns a response, exactly two uploads were added to the log and
    their file names are, in order, the top and bottom file names of the
    response. *)
Theorem split_publishes_what_it_reports
    (E : externals) (image : option upload_file) (image_url : option string) (w : world) :
  exists added,
    posts (events (snd (split_image_halves E image image_url w)))
      = posts (events w) ++ added /\
    (length added <= 2)%nat /\
    match fst (split_image_halves E image image_url w) with
    | Return (SplitResponse top_name _ bottom_name _) => map fst added = [top_name; bottom_name]
    | Return (PreviewResponse _ _) => False
    | _ => True
    end.
Proof.
  rewrite split_run.
  destruct (resolve_source E image image_url w) as [[source | st d | msg] w1] eqn:Hsrc;
    pose proof (adds_no_post_resolve_source E image image_url _ _ _ Hsrc) as Hp1;
    try (exists []; cbn [fst snd raise_http]; rewrite app_nil_r; repeat split; [exact Hp1 | simpl; lia]).
  destruct (bisect_and_encode E source w1) as [[encoded | st d | msg] w2] eqn:Henc;
    pose proof (adds_no_post_bisect_and_encode E source _ _ _ Henc) as Hp2;
    try (exists []; cbn [fst snd raise_http]; rewrite app_nil_r; repeat split;
         [congruence | simpl; lia]).
  destruct encoded as [[[top_bytes top_name] bottom_bytes] bottom_name].
  unfold try_except_reraise_http, publish_halves, bind.
  pose proof (upload_posts E top_bytes top_name w2) as Hp3.
  destruct (upload_to_tmpfiles E top_bytes top_name w2) as [[top_url | st d | msg] w3];
    cbn [snd] in Hp3;
    try (exists [(top_name, top_bytes)]; cbn [fst snd raise_http]; repeat split;
         [congruence | simpl; lia]).
  pose proof (upload_posts E bottom_bytes bottom_name w3) as Hp4.
  destruct (upload_to_tmpfiles E bottom_bytes bottom_name w3)
    as [[bottom_url | st d | msg] w4];
    cbn [snd] in Hp4;
    exists [(top_name, top_bytes); (bottom_name, bottom_bytes)]; cbn [fst snd ret raise_http];
    (repeat split; [|simpl; lia..]);
    rewrite Hp4, Hp3, Hp2, Hp1, <- app_assoc; reflexivity.
Qed.

Lemma keeps_last_name_bisect_and_encode (E : externals) (source : bytes * string) :
  keeps_last_name (bisect_and_encode E source).
Proof.
  destruct source as [file_bytes original_name]. unfold bisect_and_encode.
  apply keeps_last_name_bind; [apply keeps_last_name_call | intros opened].
  apply keeps_last_name_bind; [apply keeps_last_name_call | intros pil_img].
  apply keeps_last_name_bind; [apply keeps_last_name_lift | intros top_half].
  apply keeps_last_name_bind; [apply keeps_last_name_lift | intros bottom_half].
  apply keeps_last_name_bind; [apply keeps_last_name_pil_to_png_bytes | intros top_bytes].
  apply keeps_last_name_bind; [apply keeps_last_name_pil_to_png_bytes | intros bottom_bytes].
  apply keeps_last_name_ret.
Qed.

Lemma keeps_last_name_publish_halves
    (E : externals) (encoded : bytes * string * bytes * string) :
  keeps_last_name (publish_halves E encoded).
Proof.
  destruct encoded as [[[top_bytes top_name] bottom_bytes] bottom_name].
  unfold publish_halves.
  apply keeps_last_name_bind; [apply keeps_last_name_upload | intros top_url].
  apply keeps_last_name_bind; [apply keeps_last_name_upload | intros bottom_url].
  apply keeps_last_name_ret.
Qed.

Lemma keeps_last_name_resolve_source
    (E : externals) (image : option upload_file) (image_url : option string) :
  keeps_last_name (resolve_source E image image_url).
Proof.
  intros w o w'. rewrite resolve_source_run.
  destruct image as [upload|].
  - destruct (_validate_image_content_type upload) as [[] | st d | msg];
      [destruct (is_empty (body upload))| |]; intros [= _ <-]; reflexivity.
  - destruct (negb _); [|intros [= _ <-]; reflexivity].
    cbv zeta.
    destruct (requests_get E (events w) _) as [resp | e];
      [destruct (negb (status_code resp =? 200))|];
      intros [= _ <-]; reflexivity.
Qed.

(** X20.  The split handler never touches the file name that the preview
    handler stores: after any split request, successful or not, the stored
    name is what it was before. *)
Theorem split_keeps_stored_name
    (E : externals) (image : option upload_file) (image_url : option string) (w : world) :
  last_name (snd (split_image_halves E image image_url w)) = last_name w.
Proof.
  rewrite split_run.
  destruct (resolve_source E image image_url w) as [[source | st d | msg] w1] eqn:Hsrc;
    pose proof (keeps_last_name_resolve_source E image image_url _ _ _ Hsrc) as Hn1;
    try exact Hn1.
  destruct (bisect_and_encode E source w1) as [[encoded | st d | msg] w2] eqn:Henc;
    pose proof (keeps_last_name_bisect_and_encode E source _ _ _ Henc) as Hn2;
    try (cbn [snd]; congruence).
  unfold try_except_reraise_http.
  destruct (publish_halves E encoded w2) as [[resp | st d | msg] w3] eqn:Hpub;
    pose proof (keeps_last_name_publish_halves E encoded _ _ _ Hpub) as Hn3;
    cbn [snd raise_http]; congruence.
Qed.

(* ===================================================================== *)
(** * The cropper adapter *)
(* ===================================================================== *)

(** X21.  The adapter first writes the upload into a fresh temporary
    directory under the stored file name (["uploaded.png"] when no name was
    ever stored) and only then hands the bytes and that name to the cropper.
    Called as the preview handler calls it, right after the name was stored:
    a failed write is passed on as a plain exception and the cropper is not
    called; after a successful write the cropper is called once, its failure
    is passed on as a plain exception, and the base name returned with its
    result is the one the handler uses for the preview file, although the
    two start from different defaults.  A stored name that a fresh directory
    cannot open (one with a directory part such as ["a/b.png"], or ["."],
    [".."]) always ends in the first case, and the preview handler then
    answers a validated, non-empty upload with 500 without having called
    the cropper. *)
Theorem process_with_cropper_names
    (E : externals) (image : upload_file) (w : world) :
  let name := str_or (filename image) "uploaded.png" in
  let handler_base :=
    PyPath.splitext_root (PyPath.basename (str_or (filename image) "uploaded")) in
  let written :=
    {| events := events w ++ [EvTempFile name (body image)]; last_name := Some name |} in
  bind (set_last_name name) (fun _ => _process_with_cropper E (body image)) w
    = match write_input E name (body image) with
      | Exc e => (Raise e, written)
      | Ok _ =>
          (match cropper_process_image E (body image) name with
           | Ok result => Return (result, handler_base)
           | Exc e => Raise e
           end,
           {| events := events w ++ [EvTempFile name (body image);
                                     EvCropper (body image) name];
              last_name := Some name |})
      end /\
  (PyPath.refused_in_fresh_directory name = true ->
   exists e,
     bind (set_last_name name) (fun _ => _process_with_cropper E (body image)) w
       = (Raise e, written) /\
     (_validate_image_content_type image = Return tt ->
      is_empty (body image) = false ->
      crop_and_perspective_correction E image w
        = (RaiseHTTP 500 ("Processing failed: " +:+ e), written))) /\
  events (snd (_process_with_cropper E (body image) fresh_world))
    = EvTempFile "uploaded.png" (body image)
        :: match write_temp_file E "uploaded.png" (body image) with
           | Ok _ => [EvCropper (body image) "uploaded.png"]
           | Exc _ => []
           end.
Proof.
  intros name handler_base written.
  assert (bind (set_last_name name) (fun _ => _process_with_cropper E (body image)) w
            = match write_input E name (body image) with
              | Exc e => (Raise e, written)
              | Ok _ =>
                  (match cropper_process_image E (body image) name with
                   | Ok result => Return (result, handler_base)
                   | Exc e => Raise e
                   end,
                   {| events := events w ++ [EvTempFile name (body image);
                                             EvCropper (body image) name];
                      last_name := Some name |})
              end) as Hrun.
  { unfold bind at 1, set_last_name, _process_with_cropper, bind.
    rewrite call_run. cbn [last_name default id events with_event]. fold name.
    assert (PyPath.splitext_root (PyPath.basename name) = handler_base) as Hbase.
    { unfold name, handler_base, str_or.
      destruct (filename image) as [s|]; [|reflexivity].
      destruct (String.eqb s ""); reflexivity. }
    destruct (write_input E name (body image)) as [[] | e]; [|reflexivity].
    rewrite call_run. unfold with_event. cbn [last_name events].
    replace ((events w ++ [EvTempFile name (body image)]) ++ [EvCropper (body image) name])
      with (events w ++ [EvTempFile name (body image); EvCropper (body image) name])
      by (now rewrite <- app_assoc).
    destruct (cropper_process_image E (body image) name); [|reflexivity].
    cbn [ret]. now rewrite Hbase. }
  split; [exact Hrun|]. split.
  - intros Hrefused.
    assert (exists e, write_input E name (body image) = Exc e) as [e Hwrite].
    { unfold write_input.
      destruct (PyStr.contains _ name); [eexists; reflexivity|].
      rewrite Hrefused. eexists; reflexivity. }
    exists e. split; [rewrite Hrun, Hwrite; reflexivity|].
    intros Hvalid Hbody. rewrite preview_run, Hvalid. cbv zeta. fold name.
    rewrite Hbody, Hwrite. reflexivity.
  - unfold _process_with_cropper, bind. rewrite call_run.
    cbn [fresh_world last_name default id events with_event].
    change (write_input E "uploaded.png" (body image))
      with (write_temp_file E "uploaded.png" (body image)).
    destruct (write_temp_file E "uploaded.png" (body image)) as [[] | e]; [|reflexivity].
    rewrite call_run. cbn [last_name events with_event].
    destruct (cropper_process_image E (body image) "uploaded.png"); reflexivity.
Qed.

Lemma process_with_cropper_names_witness :
  let image := {| filename := Some "a/b.png"; content_type := Some "image/png";
                  body := Sample.png_magic |} in
  PyPath.refused_in_fresh_directory "a/b.png" = true /\
  exists e,
    crop_and_perspective_correction (Sample.friendly Cases.original_only) image fresh_world
      = (RaiseHTTP 500 ("Processing failed: " +:+ e),
         {| events := [EvTempFile "a/b.png" Sample.png_magic];
            last_name := Some "a/b.png" |}).
Proof.
  intros image. split; [reflexivity|].
  destruct (proj1 (proj2 (process_with_cropper_names
                            (Sample.friendly Cases.original_only) image fresh_world))
              eq_refl)
    as (e & _ & Hhandler).
  exists e. exact (Hhandler eq_refl eq_refl).
Defined.

(* ===================================================================== *)
(** * Answers of the hosting service that carry no URL *)
(* ===================================================================== *)

(** X22.  A 200 answer whose JSON is an object with status "success" but
    without a [data] entry, or whose [data] object has no [url] entry or an
    empty one, is an upload failure reported with the body text of the
    answer: the defaults of the two [get] calls lead to the same failure. *)
Theorem upload_answer_without_url
    (response : http_response) (items : list (string * json)) :
  status_code response = 200 ->
  json_body response = Ok (JDict items) ->
  PyObj.items_get items "status" = Some (JStr "success") ->
  (PyObj.items_get items "data" = None \/
   exists inner,
     PyObj.items_get items "data" = Some (JDict inner) /\
     (PyObj.items_get inner "url" = None \/
      PyObj.items_get inner "url" = Some (JStr ""))) ->
  read_upload_response response = Exc ("Upload failed: " +:+ text response).
Proof.
  intros Hst Hjson Hstatus Hdata. unfold read_upload_response.
  rewrite Hst, Hjson. cbn [Z.eqb Pos.eqb and_then PyObj.get].
  rewrite Hstatus. cbn [default id PyObj.eq_str String.eqb].
  destruct Hdata as [Hd | (inner & Hd & Hu)]; rewrite Hd;
    cbn [default id and_then PyObj.get]; [reflexivity|].
  destruct Hu as [-> | ->]; reflexivity.
Qed.

Lemma upload_answer_without_url_witness :
  read_upload_response
    (mkResponse 200 "{}" [] (Ok (JDict [("status", JStr "success"); ("data", JDict [])])))
    = Exc "Upload failed: {}".
Proof.
  apply (upload_answer_without_url
           (mkResponse 200 "{}" [] (Ok (JDict [("status", JStr "success"); ("data", JDict [])])))
           [("status", JStr "success"); ("data", JDict [])] eq_refl eq_refl eq_refl).
  right. exists []. split; [reflexivity | now left].
Defined.

(** X23.  A 200 answer whose JSON is not an object makes the uploader fail
    with the text of the [AttributeError] raised by [data.get], naming the
    Python type of the value; the failure is reported as an upload
    failure with the usual prefix. *)
Theorem upload_answer_not_an_object
    (E : externals) (image_bytes : bytes) (name : string) (w : world)
    (response : http_response) (data : json) :
  requests_post E (events w) name image_bytes = Ok response ->
  status_code response = 200 ->
  json_body response = Ok data ->
  (forall items, data <> JDict items) ->
  fst (upload_to_tmpfiles E image_bytes name w)
    = Raise ("Failed to upload to tmpfiles.org: '" +:+ PyObj.type_name data
             +:+ "' object has no attribute 'get'").
Proof.
  intros Hpost Hst Hjson Hdata.
  rewrite upload_to_tmpfiles_run, Hpost. cbn [fst and_then].
  unfold read_upload_response. rewrite Hst, Hjson. cbn [Z.eqb Pos.eqb and_then].
  destruct data as [ | b | n | nz | s | l | items]; try reflexivity.
  exfalso. exact (Hdata items eq_refl).
Qed.

Lemma upload_answer_not_an_object_witness :
  fst (upload_to_tmpfiles
         (Cases.with_upload (Ok (mkResponse 200 "[]" [] (Ok (JList [])))))
         Sample.png_magic "a.png" fresh_world)
    = Raise "Failed to upload to tmpfiles.org: 'list' object has no attribute 'get'".
Proof.
  apply (upload_answer_not_an_object
           (Cases.with_upload (Ok (mkResponse 200 "[]" [] (Ok (JList [])))))
           Sample.png_magic "a.png" fresh_world
           (mkResponse 200 "[]" [] (Ok (JList []))) (JList [])
           eq_refl eq_refl eq_refl).
  intros items. discriminate.
Defined.

(* ===================================================================== *)
(** * The successful split response *)
(* ===================================================================== *)

Lemma bisect_and_encode_names
    (E : externals) (file_bytes : bytes) (original_name : string) (w w' : world)
    (encoded : bytes * string * bytes * string) :
  bisect_and_encode E (file_bytes, original_name) w = (Return encoded, w') ->
  exists top_bytes bottom_bytes,
    encoded = (top_bytes,
               PyPath.splitext_root (PyPath.basename original_name) +:+ "_top_half.png",
               bottom_bytes,
               PyPath.splitext_root (PyPath.basename original_name) +:+ "_bottom_half.png").
Proof.
  unfold bisect_and_encode. intros H.
  repeat match type of H with
         | bind ?m ?k ?w0 = _ =>
             unfold bind at 1 in H;
             let o := fresh "o" in let w1 := fresh "w" in
             destruct (m w0) as [[o | ? ? | ?] w1]; try discriminate
         end.
  unfold ret in H. injection H as <- _. eexists _, _. reflexivity.
Qed.

Lemma resolve_source_name
    (E : externals) (image : option upload_file) (image_url : option string)
    (w w1 : world) (file_bytes : bytes) (original_name : string) :
  resolve_source E image image_url w = (Return (file_bytes, original_name), w1) ->
  original_name
    = match image with
      | Some upload => str_or (filename upload) "uploaded.png"
      | None => downloaded_name (download_url (str_or image_url ""))
      end.
Proof.
  rewrite resolve_source_run. destruct image as [upload|].
  - destruct (_validate_image_content_type upload) as [[] | st d | msg]; try discriminate.
    destruct (is_empty (body upload)); [discriminate|]. now intros [= _ <- _].
  - destruct (negb _); [|discriminate]. cbv zeta.
    destruct (requests_get E (events w) _) as [resp | e]; [|discriminate].
    destruct (negb (status_code resp =? 200)); [discriminate|]. now intros [= _ <- _].
Qed.

(** X24.  A successful split response names the halves after the source:
    the base name of the uploaded file (["uploaded.png"] when the client
    sent none) or of the name derived from the fetched URL, followed by
    [_top_half.png] and [_bottom_half.png]; and neither URL in the response
    begins with [http://]. *)
Theorem split_success_response
    (E : externals) (image : option upload_file) (image_url : option string)
    (w w' : world) (resp : json_response) :
  split_image_halves E image image_url w = (Return resp, w') ->
  let original_name :=
    match image with
    | Some upload => str_or (filename upload) "uploaded.png"
    | None => downloaded_name (download_url (str_or image_url ""))
    end in
  let name_base := PyPath.splitext_root (PyPath.basename original_name) in
  exists top_url bottom_url,
    resp = SplitResponse (name_base +:+ "_top_half.png") top_url
                         (name_base +:+ "_bottom_half.png") bottom_url /\
    PyStr.startswith top_url "http://" = false /\
    PyStr.startswith bottom_url "http://" = false.
Proof.
  intros Hrun original_name name_base. rewrite split_run in Hrun.
  destruct (resolve_source E image image_url w) as [[[file_bytes name] | st d | msg] w1]
    eqn:Hsrc; try discriminate.
  pose proof (resolve_source_name _ _ _ _ _ _ _ Hsrc) as Hname. fold original_name in Hname.
  destruct (bisect_and_encode E (file_bytes, name) w1) as [[encoded | st d | msg] w2]
    eqn:Henc; try discriminate.
  destruct (bisect_and_encode_names _ _ _ _ _ _ Henc) as (top_bytes & bottom_bytes & ->).
  subst name. fold name_base in Hrun.
  unfold try_except_reraise_http, publish_halves, bind in Hrun.
  destruct (upload_to_tmpfiles E top_bytes _ w2) as [[top_url | st d | msg] w3] eqn:Htop;
    try discriminate.
  destruct (upload_to_tmpfiles E bottom_bytes _ w3) as [[bottom_url | st d | msg] w4]
    eqn:Hbottom; try discriminate.
  unfold ret in Hrun. injection Hrun as <- _.
  exists top_url, bottom_url. split; [reflexivity|]. split.
  - exact (upload_returns_https _ _ _ _ _ _ Htop).
  - exact (upload_returns_https _ _ _ _ _ _ Hbottom).
Qed.

Lemma split_success_response_witness :
  exists top_url bottom_url,
    SplitResponse "a.b_top_half.png" "https://tmpfiles.org/dl/42/a.b_top_half.png"
                  "a.b_bottom_half.png" "https://tmpfiles.org/dl/42/a.b_bottom_half.png"
      = SplitResponse "a.b_top_half.png" top_url "a.b_bottom_half.png" bottom_url /\
    PyStr.startswith top_url "http://" = false /\
    PyStr.startswith bottom_url "http://" = false.
Proof.
  exact (split_success_response (Sample.friendly ∅) None
           (Some "http://tmpfiles.org/12/a.b.png?x=1") fresh_world _ _ eq_refl).
Defined.

(** X25.  When decoding, converting, cropping or encoding fails after the
    source was resolved, the split handler answers 500 with the failure
    text after the fixed prefix, and nothing has been published. *)
Theorem split_encoding_failure
    (E : externals) (image : option upload_file) (image_url : option string)
    (w w1 w2 : world) (source : bytes * string) (msg : string) :
  resolve_source E image image_url w = (Return source, w1) ->
  bisect_and_encode E source w1 = (Raise msg, w2) ->
  split_image_halves E image image_url w
    = (RaiseHTTP 500 ("Split failed: " +:+ msg), w2) /\
  posts (events w2) = posts (events w).
Proof.
  intros Hsource Hencode. split.
  - rewrite split_run, Hsource, Hencode. reflexivity.
  - rewrite (adds_no_post_bisect_and_encode E source _ _ _ Hencode).
    exact (adds_no_post_resolve_source E image image_url _ _ _ Hsource).
Qed.

Lemma split_encoding_failure_witness :
  fst (split_image_halves Cases.unsavable (Some Sample.png_upload) None fresh_world)
    = RaiseHTTP 500 "Split failed: cannot write empty image as PNG".
Proof.
  exact (f_equal fst
           (proj1 (split_encoding_failure Cases.unsavable (Some Sample.png_upload) None
                     fresh_world fresh_world _ (Sample.png_magic, "scan.png")
                     "cannot write empty image as PNG" eq_refl eq_refl))).
Defined.
